(** * GitHub commit-activity badge and license colours: a shallow embedding

    The development follows [services/github/github-commit-activity.service.js]
    (the [GitHubCommitActivity] service) and the license helpers that come with
    it ([licenseToColorMap], [licenseToColor]).  JavaScript values are an
    inductive type, property reads and [throw] live in a completion monad, the
    two request methods and the clock are an explicit world, and the requests a
    handler issues are logged so that they can be counted. *)

From Stdlib Require Import ZArith String Ascii List Lia Bool.
From stdpp Require Import base option gmap strings list pretty.

Local Open Scope Z_scope.
Local Open Scope string_scope.

(** ** The JavaScript fragment the service is written in *)

Module JS.

(** Values.  Numbers are the integers the service handles (counts, page
    numbers, priorities); objects are finite maps from property names to
    values, own properties only. *)
#[warnings="-register-all"]
Inductive JSValue : Type :=
  | JUndefined
  | JNull
  | JBool (b : bool)
  | JNum (n : Z)
  | JStr (s : string)
  | JArr (items : list JSValue)
  | JObj (props : gmap string JSValue).

(** The failure taxonomy of the service layer; the service under study
    constructs [InvalidResponse] only, the others arrive from the request
    layer. *)
Inductive FailureKind : Type :=
  | NotFound
  | RateLimited
  | AuthRejected
  | TransientServerError
  | InvalidResponse
  | Deprecated.

(** What a [throw] carries: a classified failure with its [prettyMessage], or
    the engine's own [TypeError] (reading a property of [undefined] or
    [null]). *)
Inductive JSError : Type :=
  | Failure (kind : FailureKind) (prettyMessage : string)
  | TypeError.

Inductive Completion (A : Type) : Type :=
  | Return (a : A)
  | Throw (e : JSError).

Arguments Return {A} a.
Arguments Throw {A} e.

Definition bind {A B : Type} (c : Completion A) (k : A -> Completion B)
  : Completion B :=
  match c with
  | Return a => k a
  | Throw e => Throw e
  end.

(** A completion is a failure classified [k]; an engine fault such as a
    TypeError is classified as nothing. *)
Definition classifiedAs {A : Type} (k : FailureKind) (c : Completion A)
  : Prop :=
  exists msg, c = Throw (Failure k msg).

(** [!!v]: ToBoolean. *)
Definition truthy (v : JSValue) : bool :=
  match v with
  | JUndefined | JNull => false
  | JBool b => b
  | JNum n => negb (Z.eqb n 0)
  | JStr s => negb (String.eqb s "")
  | JArr _ | JObj _ => true
  end.

(** [v.k] for the property names the code reads ([data], [repository],
    [object], [history], [totalCount], [message], [headers], [link], [last],
    [page], [label]): a TypeError on [undefined] and [null], the own property
    of an object, and [undefined] on primitives and arrays, whose prototypes
    define none of these names.  The one exception is [link] on a string,
    which [String.prototype] defines as a method and which no value here can
    stand for; the headers of a response, from which [link] is read, are an
    object. *)
Definition GetV (v : JSValue) (k : string) : Completion JSValue :=
  match v with
  | JUndefined | JNull => Throw TypeError
  | JObj props => Return (default JUndefined (props !! k))
  | JBool _ | JNum _ | JStr _ | JArr _ => Return JUndefined
  end.

(** [v === 'lit'] against a string literal. *)
Definition strictEqStr (v : JSValue) (lit : string) : bool :=
  match v with
  | JStr s => String.eqb s lit
  | _ => false
  end.

(** [a || b]. *)
Definition orElse (a b : JSValue) : JSValue :=
  if truthy a then a else b.

(** Is the value a number, as opposed to a string or anything else? *)
Definition isNumber (v : JSValue) : bool :=
  match v with
  | JNum _ => true
  | _ => false
  end.

(** ToNumber on the values it is applied to here, priorities and page sizes:
    a number, a string of decimal digits (the empty string reads 0), or
    [undefined]; [None] is NaN. *)
Fixpoint digitsValue (s : string) (acc : Z) : option Z :=
  match s with
  | EmptyString => Some acc
  | String c s' =>
      let n := Z.of_nat (nat_of_ascii c) in
      if Z.leb 48 n && Z.leb n 57 then digitsValue s' (10 * acc + (n - 48))
      else None
  end.

Definition ToNumber (v : JSValue) : option Z :=
  match v with
  | JNum n => Some n
  | JStr s => digitsValue s 0
  | JNull => Some 0
  | JBool b => Some (if b then 1 else 0)
  | JUndefined | JArr _ | JObj _ => None
  end.

(** The property names every object inherits from [Object.prototype]:
    reading one of them from an object literal that has no such key of its
    own yields the inherited function (for [__proto__], the prototype itself)
    instead of [undefined]. *)
Definition objectPrototypeNames : list string := [
  "constructor"; "hasOwnProperty"; "isPrototypeOf"; "propertyIsEnumerable";
  "toLocaleString"; "toString"; "valueOf"; "__proto__"; "__defineGetter__";
  "__defineSetter__"; "__lookupGetter__"; "__lookupSetter__"
].

(** ToString, which a template literal applies to each value it
    interpolates.  A number prints as its decimal numeral (the integers here
    stay below 10^21 in size, where the exponent notation begins); an array
    prints its elements separated by commas, [undefined] and [null] among
    them as nothing; an object prints through [Object.prototype.toString],
    unless it has a [toString] of its own, which cannot be called since no
    value here is a function: the conversion then ends in a TypeError. *)
Fixpoint ToString (v : JSValue) : Completion string :=
  match v with
  | JUndefined => Return "undefined"
  | JNull => Return "null"
  | JBool b => Return (if b then "true" else "false")
  | JNum n => Return (pretty n)
  | JStr s => Return s
  | JArr items =>
      (fix join (l : list JSValue) : Completion string :=
         match l with
         | [] => Return ""
         | x :: l' =>
             bind
               match x with
               | JUndefined | JNull => Return ""
               | _ => ToString x
               end
               (fun s =>
                  match l' with
                  | [] => Return s
                  | _ :: _ =>
                      bind (join l') (fun rest => Return (s ++ "," ++ rest))
                  end)
         end) items
  | JObj props =>
      match props !! "toString" with
      | Some _ => Throw TypeError
      | None => Return "[object Object]"
      end
  end.

(** The value at a path step, [undefined] where there is none: how a payload
    is read when nothing can throw. *)
Definition field (v : JSValue) (k : string) : JSValue :=
  match v with
  | JObj props => default JUndefined (props !! k)
  | _ => JUndefined
  end.

End JS.

Export JS.

Notation "'let*' x ':=' c 'in' k" := (bind c (fun x => k))
  (at level 10, x name, c at level 100, k at level 200).

(** ** Dates: the time-value arithmetic of the language standard

    A [Date] holds a time value, the milliseconds since 1970-01-01T00:00Z.
    The functions are the abstract operations of the standard under their
    names there.  The clock of a running process is far inside the range of
    time values a Date can hold, so the clipping of out-of-range values is not
    modelled. *)

Module Date.

Definition msPerDay : Z := 86400000.
Definition msPerHour : Z := 3600000.
Definition msPerMinute : Z := 60000.
Definition msPerSecond : Z := 1000.

Definition Day (t : Z) : Z := t / msPerDay.
Definition TimeWithinDay (t : Z) : Z := t mod msPerDay.

Definition DaysInYear (y : Z) : Z :=
  if negb (Z.eqb (y mod 4) 0) then 365
  else if negb (Z.eqb (y mod 100) 0) then 366
  else if negb (Z.eqb (y mod 400) 0) then 365
  else 366.

Definition DayFromYear (y : Z) : Z :=
  365 * (y - 1970) + (y - 1969) / 4 - (y - 1901) / 100 + (y - 1601) / 400.

Definition TimeFromYear (y : Z) : Z := msPerDay * DayFromYear y.

(** The largest [y] with [TimeFromYear y <= t]: an estimate from the mean
    length of a year, off by at most one, then corrected. *)
Definition YearFromTime (t : Z) : Z :=
  let d := Day t in
  let y := 1970 + (d * 400) / 146097 in
  if Z.ltb d (DayFromYear y) then y - 1
  else if Z.leb (DayFromYear (y + 1)) d then y + 1
  else y.

Definition InLeapYear (t : Z) : Z :=
  if Z.eqb (DaysInYear (YearFromTime t)) 366 then 1 else 0.

Definition DayWithinYear (t : Z) : Z := Day t - DayFromYear (YearFromTime t).

(** Number of days before month [m] (0 = January) in a year with leap flag
    [leap]. *)
Definition daysBeforeMonth (m leap : Z) : Z :=
  match m with
  | 0 => 0
  | 1 => 31
  | 2 => 59 + leap
  | 3 => 90 + leap
  | 4 => 120 + leap
  | 5 => 151 + leap
  | 6 => 181 + leap
  | 7 => 212 + leap
  | 8 => 243 + leap
  | 9 => 273 + leap
  | 10 => 304 + leap
  | _ => 334 + leap
  end.

Definition MonthFromTime (t : Z) : Z :=
  let d := DayWithinYear t in
  let leap := InLeapYear t in
  if Z.ltb d 31 then 0
  else if Z.ltb d (59 + leap) then 1
  else if Z.ltb d (90 + leap) then 2
  else if Z.ltb d (120 + leap) then 3
  else if Z.ltb d (151 + leap) then 4
  else if Z.ltb d (181 + leap) then 5
  else if Z.ltb d (212 + leap) then 6
  else if Z.ltb d (243 + leap) then 7
  else if Z.ltb d (273 + leap) then 8
  else if Z.ltb d (304 + leap) then 9
  else if Z.ltb d (334 + leap) then 10
  else 11.

Definition DateFromTime (t : Z) : Z :=
  DayWithinYear t - daysBeforeMonth (MonthFromTime t) (InLeapYear t) + 1.

Definition HourFromTime (t : Z) : Z := (t / msPerHour) mod 24.
Definition MinFromTime (t : Z) : Z := (t / msPerMinute) mod 60.
Definition SecFromTime (t : Z) : Z := (t / msPerSecond) mod 60.
Definition msFromTime (t : Z) : Z := t mod msPerSecond.

(** [MakeDay]: the day number of the first of the month, plus [date - 1];
    months outside 0..11 carry into the year. *)
Definition MakeDay (year month date : Z) : Z :=
  let ym := year + month / 12 in
  let mn := month mod 12 in
  let leap := if Z.eqb (DaysInYear ym) 366 then 1 else 0 in
  DayFromYear ym + daysBeforeMonth mn leap + date - 1.

Definition MakeDate (day time : Z) : Z := day * msPerDay + time.

Definition getUTCFullYear (t : Z) : Z := YearFromTime t.
Definition getUTCDate (t : Z) : Z := DateFromTime t.

Definition setUTCFullYear (t : Z) (year : Z) : Z :=
  MakeDate (MakeDay year (MonthFromTime t) (DateFromTime t)) (TimeWithinDay t).

Definition setUTCDate (t : Z) (date : Z) : Z :=
  MakeDate (MakeDay (YearFromTime t) (MonthFromTime t) date) (TimeWithinDay t).

(** Decimal digits, least significant first in the accumulator. *)
Fixpoint digits (fuel : nat) (n : Z) (acc : string) : string :=
  match fuel with
  | O => acc
  | S fuel' =>
      digits fuel' (n / 10)
        (String (ascii_of_nat (Z.to_nat (48 + n mod 10))) acc)
  end.

(** [n] in exactly [width] decimal digits (its low [width] digits, zero
    padded). *)
Definition pad (width : nat) (n : Z) : string := digits width n "".

(** The year of the ISO format: four digits from 0 to 9999, a sign and six
    digits outside. *)
Definition isoYear (y : Z) : string :=
  if Z.leb 0 y && Z.leb y 9999 then pad 4 y
  else if Z.ltb y 0 then "-" ++ pad 6 (- y)
  else "+" ++ pad 6 y.

Definition toISOString (t : Z) : string :=
  isoYear (YearFromTime t) ++ "-" ++ pad 2 (MonthFromTime t + 1) ++ "-"
  ++ pad 2 (DateFromTime t) ++ "T" ++ pad 2 (HourFromTime t) ++ ":"
  ++ pad 2 (MinFromTime t) ++ ":" ++ pad 2 (SecFromTime t) ++ "."
  ++ pad 3 (msFromTime t) ++ "Z".

End Date.

(** ** Declarative validation (the fragment of Joi the schema uses)

    A schema is the set of values validation lets through; an absent key
    reads as [undefined]. *)

Module Joi.

Definition Schema : Type := JSValue -> bool.

(** [Joi.object({...})]: optional unless [required]; an object whose listed
    keys satisfy their schemas (further keys are let through); [null],
    arrays and primitives are refused. *)
Definition object (keys : list (string * Schema)) : Schema :=
  fun v =>
    match v with
    | JUndefined => true
    | JObj props =>
        forallb (fun ks => snd ks (default JUndefined (props !! fst ks))) keys
    | _ => false
    end.

(** [.required()]. *)
Definition required (s : Schema) : Schema :=
  fun v =>
    match v with
    | JUndefined => false
    | _ => s v
    end.

(** [Joi.string()], as the query parameter [authorFilter] is declared. *)
Definition string : Schema :=
  fun v =>
    match v with
    | JUndefined => true
    | JStr s => negb (String.eqb s "")
    | _ => false
    end.

End Joi.

(** ** The service *)

Module GitHubCommitActivity.

Record Badge : Type := { label : string; message : string }.

(** [options.searchParams] of the REST request. *)
Record SearchParams : Type := {
  sha : JSValue;
  author : JSValue;
  per_page : JSValue;
  since : JSValue
}.

(** [variables] of the GraphQL request. *)
Record Variables : Type := {
  var_user : JSValue;
  var_repo : JSValue;
  var_branch : JSValue;
  var_since : JSValue
}.

(** What [_request] resolves to. *)
Record RestResult : Type := { res : JSValue; buffer : JSValue }.

(** The number of items a response body lists. *)
Definition itemsReturned (body : JSValue) : option nat :=
  match body with
  | JArr items => Some (length items)
  | _ => None
  end.

(** The argument of [_request]. *)
Record RestRequest : Type := {
  url : string;
  searchParams : SearchParams;
  errorMessages : JSValue
}.

(** The argument of [_requestGraphql]. *)
Record GraphqlRequest : Type := {
  query : string;
  variables : Variables;
  gql_schema : Joi.Schema;
  gql_transformErrors : JSValue
}.

(** The request layer and the clock, as the handler sees them: [_request]
    and [_requestGraphql] of the base class, and the reading [new Date()]
    takes. *)
Record World : Type := {
  clock : Z;
  _request : RestRequest -> Completion RestResult;
  _requestGraphql : GraphqlRequest -> Completion JSValue
}.

(** A handler run: a completion together with the requests issued so far,
    oldest first. *)
Inductive Call : Type :=
  | RestCall (r : RestRequest)
  | GraphqlCall (q : GraphqlRequest).

Definition Svc (A : Type) : Type := list Call -> Completion A * list Call.

Definition svc_ret {A : Type} (a : A) : Svc A := fun log => (Return a, log).

Definition svc_bind {A B : Type} (m : Svc A) (k : A -> Svc B) : Svc B :=
  fun log =>
    match m log with
    | (Return a, log') => k a log'
    | (Throw e, log') => (Throw e, log')
    end.

Definition svc_lift {A : Type} (c : Completion A) : Svc A :=
  fun log => (c, log).

Definition issueRest (w : World) (r : RestRequest) : Svc RestResult :=
  fun log => (_request w r, (log ++ [RestCall r])%list).

Definition issueGraphql (w : World) (q : GraphqlRequest) : Svc JSValue :=
  fun log => (_requestGraphql w q, (log ++ [GraphqlCall q])%list).

(** The requests a run issues and its completion, started from an empty
    log. *)
Definition requestsOf {A : Type} (m : Svc A) : list Call := snd (m []).
Definition resultOf {A : Type} (m : Svc A) : Completion A := fst (m []).

Section Service.

(** Imports of the service that are not part of it: the number formatter
    [metric] of text-formatters.js, the validator [nonNegativeInteger] of
    validators.js, [transformErrors] and [errorMessagesFor] of
    github-helpers.js (both handed on to the request layer), and the
    [parse-link-header] package. *)
Variable metric : JSValue -> string.
Variable nonNegativeInteger : Joi.Schema.
Variable transformErrors : JSValue.
Variable errorMessagesFor : string -> JSValue.
Variable parseLinkHeader : JSValue -> Completion JSValue.

(** The text a built-in function converts to, by the name it is inherited
    under; the standard leaves the text to the engine. *)
Variable nativeFunctionText : string -> string.

Definition schema : Joi.Schema :=
  Joi.required (Joi.object [
    ("data", Joi.required (Joi.object [
      ("repository", Joi.required (Joi.object [
        ("object", Joi.object [
          ("history", Joi.required (Joi.object [
            ("totalCount", nonNegativeInteger)
          ]))
        ])
      ]))
    ]))
  ]).

Definition queryParamSchema : Joi.Schema :=
  Joi.object [("authorFilter", Joi.string)].

(** [static defaultBadgeData] (line 66). *)
Definition defaultBadgeData : JSValue :=
  JObj (list_to_map [
    ("label", JStr "commit activity"); ("color", JStr "blue")
  ]).

(** The object literal [{ t: '', y: '/year', ... }] of [render]: its own
    keys. *)
Definition intervalLabels : gmap string string :=
  list_to_map [
    ("t", ""); ("y", "/year"); ("m", "/month"); ("4w", "/four weeks");
    ("w", "/week")
  ].

(** The text of the value the object literal inherits under a name of
    [Object.prototype]: a built-in function, except under [__proto__], which
    is the prototype itself, an object. *)
Definition inheritedText (name : string) : string :=
  if String.eqb name "__proto__" then "[object Object]"
  else nativeFunctionText name.

(** [intervalLabel] as the template literal interpolates it: the string of an
    own key, the text of an inherited value, and 'undefined' for any other
    name. *)
Definition intervalLabelText (interval : string) : string :=
  match intervalLabels !! interval with
  | Some intervalLabel => intervalLabel
  | None =>
      if bool_decide (interval ∈ objectPrototypeNames)
      then inheritedText interval
      else "undefined"
  end.

(** An optional string parameter as a value, and its truth value. *)
Definition ofOption (o : option string) : JSValue :=
  match o with
  | Some s => JStr s
  | None => JUndefined
  end.

(** Interpolation of a string or [undefined] into a template literal. *)
Definition interpolate (o : option string) : string :=
  match o with
  | Some s => s
  | None => "undefined"
  end.

(** The constant [authorFilterLabel] of [render]. *)
Definition authorFilterLabel (authorFilter : option string) : string :=
  if truthy (ofOption authorFilter)
  then " by " ++ interpolate authorFilter
  else "".

(** [render] is a static method: [this] is the class, and
    [thisDefaultBadgeData] is what [this.defaultBadgeData] evaluates to at
    the time of the call.  It is read only when the interval is not t, and
    its [label] goes through the template literal like any value. *)
Definition render (thisDefaultBadgeData : JSValue) (interval : string)
  (commitCount : JSValue) (authorFilter : option string)
  : Completion Badge :=
  let* label :=
    if String.eqb interval "t" then Return (JStr "commits")
    else GetV thisDefaultBadgeData "label" in
  let authorFilterLabel := authorFilterLabel authorFilter in
  let intervalLabel := intervalLabelText interval in
  let* labelText := ToString label in
  Return {| label := labelText ++ authorFilterLabel;
            message := metric commitCount ++ intervalLabel |}.

(** The two [staticPreview]s of [static examples] (lines 45 and 60).  Static
    fields are initialised in the order they are written, and [examples]
    comes before [defaultBadgeData]: when the previews are rendered the class
    has no [defaultBadgeData] of its own yet, and [this.defaultBadgeData] is
    [inherited], what the base class provides under that name ([undefined]
    if nothing). *)
Definition staticPreviews (inherited : JSValue) : Completion (Badge * Badge) :=
  let* first := render inherited "m" (JNum 457) None in
  let* second := render inherited "m" (JNum 5) None in
  Return (first, second).

Definition getIntervalQueryStartDate (now : Z) (interval : string) : JSValue :=
  if String.eqb interval "t" then JNull
  else if String.eqb interval "y" then
    JStr (Date.toISOString
            (Date.setUTCFullYear now (Date.getUTCFullYear now - 1)))
  else if String.eqb interval "m" || String.eqb interval "4w" then
    JStr (Date.toISOString (Date.setUTCDate now (Date.getUTCDate now - 30)))
  else
    JStr (Date.toISOString (Date.setUTCDate now (Date.getUTCDate now - 7))).

(** The document of the query, white space aside. *)
Definition commitCountQuery : string :=
  "query ($user: String!, $repo: String!, $branch: String!, $since: GitTimestamp) { repository(owner: $user, name: $repo) { object(expression: $branch) { ... on Commit { history(since: $since) { totalCount } } } } }".

(** A parameter with the default ['HEAD']. *)
Definition branchOrHead (branch : option string) : string :=
  match branch with
  | Some b => b
  | None => "HEAD"
  end.

Definition fetchRequest (now : Z) (interval user repo : string)
  (branch : option string) : GraphqlRequest :=
  let since := getIntervalQueryStartDate now interval in
  {| query := commitCountQuery;
     variables := {| var_user := JStr user; var_repo := JStr repo;
                     var_branch := JStr (branchOrHead branch);
                     var_since := since |};
     gql_schema := schema;
     gql_transformErrors := transformErrors |}.

Definition fetch (w : World) (interval user repo : string)
  (branch : option string) : Svc JSValue :=
  issueGraphql w (fetchRequest (clock w) interval user repo branch).

Definition fetchAuthorFilterRequest (now : Z) (interval user repo : string)
  (branch authorFilter : option string) : RestRequest :=
  let since := orElse (getIntervalQueryStartDate now interval) JUndefined in
  {| url := "/repos/" ++ user ++ "/" ++ repo ++ "/commits";
     searchParams := {| sha := JStr (branchOrHead branch);
                        author := ofOption authorFilter;
                        per_page := JStr "1";
                        since := since |};
     errorMessages := errorMessagesFor "repo not found" |}.

Definition fetchAuthorFilter (w : World) (interval user repo : string)
  (branch authorFilter : option string) : Svc RestResult :=
  issueRest w
    (fetchAuthorFilterRequest (clock w) interval user repo branch authorFilter).

Definition transform (json : JSValue) : Completion JSValue :=
  let* data := GetV json "data" in
  let* repository := GetV data "repository" in
  let* repo := GetV repository "object" in
  if negb (truthy repo) then Throw (Failure InvalidResponse "invalid branch")
  else
    let* history := GetV repo "history" in
    GetV history "totalCount".

(** [data.repository.object] of a payload, [undefined] where the path
    breaks off. *)
Definition repositoryObject (json : JSValue) : JSValue :=
  field (field (field json "data") "repository") "object".

(** [res.headers.link]. *)
Definition linkOf (r : RestResult) : Completion JSValue :=
  let* headers := GetV (res r) "headers" in
  GetV headers "link".

Definition transformAuthorFilter (r : RestResult) : Completion JSValue :=
  let* message := GetV (buffer r) "message" in
  if strictEqStr message "Not Found"
  then Throw (Failure InvalidResponse "invalid branch")
  else
    let* headers := GetV (res r) "headers" in
    let* link := GetV headers "link" in
    let* parsed := parseLinkHeader link in
    if negb (truthy parsed) then Return (JNum 0)
    else
      let* last := GetV parsed "last" in
      GetV last "page".

(** [handle] runs on an instance, so the class is defined by then:
    [this.constructor.render] finds the [defaultBadgeData] of line 66. *)
Definition handle (w : World) (interval user repo : string)
  (branch authorFilter : option string) : Svc Badge :=
  svc_bind
    (if truthy (ofOption authorFilter) then
       svc_bind (fetchAuthorFilter w interval user repo branch authorFilter)
         (fun authorFilterRes =>
            svc_lift (transformAuthorFilter authorFilterRes))
     else
       svc_bind (fetch w interval user repo branch)
         (fun json => svc_lift (transform json)))
    (fun commitCount =>
       svc_lift (render defaultBadgeData interval commitCount authorFilter)).

(** The page size a request asks for. *)
Definition pageSize (r : RestRequest) : option Z :=
  ToNumber (per_page (searchParams r)).

(** The one request a run of [handle] starts with. *)
Definition requestOfHandle (w : World) (interval user repo : string)
  (branch authorFilter : option string) : Call :=
  if truthy (ofOption authorFilter)
  then RestCall
         (fetchAuthorFilterRequest (clock w) interval user repo branch
            authorFilter)
  else GraphqlCall (fetchRequest (clock w) interval user repo branch).

End Service.

End GitHubCommitActivity.

(** ** The [parse-link-header] package

    A reference model of the package the service imports, so that the service
    can be run on the text of a [Link] header.  The regular expressions of the
    package are written in continuation-passing style, which reproduces the
    order in which a backtracking matcher tries alternatives (greedy
    quantifiers give characters back one at a time).  Characters are bytes.
    The query string of a link target is the text between its first [?] and
    its first [#], split at [&] and [=]; percent-decoding is not modelled, so
    the model covers targets without [%] and [+].  The service itself is
    written against any parser (a section variable); this one serves to run
    it. *)

Module ParseLinkHeader.

Section Matcher.

Context {R : Type}.

(** [c*], greedy: take while [p] holds, then try the continuation, giving
    back one character at a time on failure. *)
Fixpoint star (p : ascii -> bool) (s taken : list ascii)
  (k : list ascii -> list ascii -> option R) : option R :=
  match s with
  | c :: s' =>
      if p c then
        match star p s' (taken ++ [c]) k with
        | Some r => Some r
        | None => k taken s
        end
      else k taken s
  | [] => k taken s
  end.

(** [c+]. *)
Definition plus (p : ascii -> bool) (s : list ascii)
  (k : list ascii -> list ascii -> option R) : option R :=
  match s with
  | c :: s' => if p c then star p s' [c] k else None
  | [] => None
  end.

(** [c?], greedy. *)
Definition opt (p : ascii -> bool) (s : list ascii)
  (k : list ascii -> option R) : option R :=
  match s with
  | c :: s' =>
      if p c then
        match k s' with
        | Some r => Some r
        | None => k s
        end
      else k s
  | [] => k s
  end.

(** A single character. *)
Definition chr (p : ascii -> bool) (s : list ascii)
  (k : list ascii -> option R) : option R :=
  match s with
  | c :: s' => if p c then k s' else None
  | [] => None
  end.

(** An unanchored match: the leftmost start position that matches. *)
Fixpoint search (m : list ascii -> option R) (s : list ascii) : option R :=
  match m s with
  | Some r => Some r
  | None =>
      match s with
      | _ :: s' => search m s'
      | [] => None
      end
  end.

End Matcher.

Definition isChar (c : ascii) : ascii -> bool := Ascii.eqb c.
Definition notChar (c : ascii) : ascii -> bool :=
  fun d => negb (Ascii.eqb c d).

(** The double quote. *)
Definition dquote : ascii := ascii_of_nat 34.

(** [\s]: tab, line feed, vertical tab, form feed, carriage return, space,
    no-break space. *)
Definition isSpace (c : ascii) : bool :=
  let n := nat_of_ascii c in
  (Nat.leb 9 n && Nat.leb n 13) || Nat.eqb n 32 || Nat.eqb n 160.

(** [.]: anything but a line terminator. *)
Definition dot (c : ascii) : bool :=
  let n := nat_of_ascii c in
  negb (Nat.eqb n 10 || Nat.eqb n 13).

(** [/,\s*</] at the head of [s]: what follows the separator. *)
Definition linkSeparator (s : list ascii) : option (list ascii) :=
  chr (isChar ",") s (fun s1 =>
  star isSpace s1 [] (fun _ s2 =>
  chr (isChar "<") s2 (fun s3 => Some s3))).

(** [str.split(sep)] for a separator that never matches the empty string. *)
Fixpoint splitBy (sep : list ascii -> option (list ascii)) (fuel : nat)
  (s piece : list ascii) : list (list ascii) :=
  match fuel with
  | O => [(piece ++ s)%list]
  | S fuel' =>
      match s with
      | [] => [piece]
      | c :: s' =>
          match sep s with
          | Some rest => piece :: splitBy sep fuel' rest []
          | None => splitBy sep fuel' s' (piece ++ [c])
          end
      end
  end.

Definition split (sep : list ascii -> option (list ascii)) (s : list ascii)
  : list (list ascii) :=
  splitBy sep (length s) s [].

Definition splitAt (c : ascii) : list ascii -> list (list ascii) :=
  split (fun s => chr (isChar c) s (fun s' => Some s')).

(** [/\s+/]. *)
Definition spaces (s : list ascii) : option (list ascii) :=
  plus isSpace s (fun _ s' => Some s').

(** The pattern of one link: an optional [<], the target (every character up
    to the first [>], captured), the [>], and the rest of the line
    (captured). *)
Definition linkPattern (s : list ascii) : option (list ascii * list ascii) :=
  search (fun s0 =>
    opt (isChar "<") s0 (fun s1 =>
    star (notChar ">") s1 [] (fun target s2 =>
    chr (isChar ">") s2 (fun s3 =>
    star dot s3 [] (fun rest _ => Some (target, rest)))))) s.

(** The pattern of one parameter: spaces, the name (one or more characters,
    captured), spaces, [=], spaces, an optional double quote, the value (one
    or more characters other than a double quote, captured) and an optional
    double quote. *)
Definition paramPattern (s : list ascii) : option (list ascii * list ascii) :=
  search (fun s0 =>
    star isSpace s0 [] (fun _ s1 =>
    plus dot s1 (fun name s2 =>
    star isSpace s2 [] (fun _ s3 =>
    chr (isChar "=") s3 (fun s4 =>
    star isSpace s4 [] (fun _ s5 =>
    opt (isChar dquote) s5 (fun s6 =>
    plus (notChar dquote) s6 (fun value s7 =>
    opt (isChar dquote) s7 (fun _ => Some (name, value)))))))))) s.

Definition str (s : list ascii) : string := string_of_list_ascii s.

(** [url.parse(target).query]: nothing without a [?] before the first [#]. *)
Definition queryOf (target : list ascii) : option (list ascii) :=
  match splitAt "#" target with
  | beforeHash :: _ =>
      match splitAt "?" beforeHash with
      | _ :: q :: qs => Some (q ++ concat (map (cons "?"%char) qs))%list
      | _ => None
      end
  | [] => None
  end.

(** One [key=value] piece of a query string added to the object: a repeated
    key collects its values in an array. *)
Definition addQueryParam (acc : gmap string JSValue) (piece : list ascii)
  : gmap string JSValue :=
  match piece with
  | [] => acc
  | _ =>
      let (key, value) :=
        match splitAt "=" piece with
        | k :: v :: vs =>
            (str k, str (v ++ concat (map (cons "="%char) vs))%list)
        | k :: [] => (str k, "")
        | [] => ("", "")
        end in
      match acc !! key with
      | None => <[key := JStr value]> acc
      | Some (JArr vs) => <[key := JArr (vs ++ [JStr value])]> acc
      | Some v => <[key := JArr [v; JStr value]]> acc
      end
  end.

(** [querystring.parse]. *)
Definition qs_parse (query : option (list ascii)) : gmap string JSValue :=
  match query with
  | None => ∅
  | Some q => foldl addQueryParam ∅ (splitAt "&" q)
  end.

(** [createObjects]. *)
Definition createObjects (acc : gmap string JSValue) (p : list ascii)
  : gmap string JSValue :=
  match paramPattern p with
  | Some (name, value) => <[str name := JStr (str value)]> acc
  | None => acc
  end.

(** [parseLink]: [None] is the [null] of a link that does not parse. *)
Definition parseLink (link : list ascii) : option (gmap string JSValue) :=
  match linkPattern link with
  | None => None
  | Some (linkUrl, rest) =>
      let parts := tail (splitAt ";" rest) in
      let qry := qs_parse (queryOf linkUrl) in
      let info := foldl createObjects ∅ parts in
      Some (<["url" := JStr (str linkUrl)]> (info ∪ qry))
  end.

(** [hasRel]. *)
Definition hasRel (x : option (gmap string JSValue)) : bool :=
  match x with
  | Some info => truthy (default JUndefined (info !! "rel"))
  | None => false
  end.

(** [intoRels]: one entry per relation named in [rel]; a [rel] that is not a
    string has no [split] method. *)
Definition intoRels (acc : Completion (gmap string JSValue))
  (x : option (gmap string JSValue)) : Completion (gmap string JSValue) :=
  let* rels := acc in
  match x with
  | Some info =>
      match info !! "rel" with
      | Some (JStr rel) =>
          Return
            (foldl
               (fun a r => <[str r := JObj (<["rel" := JStr (str r)]> info)]> a)
               rels (split spaces (list_ascii_of_string rel)))
      | _ => Throw TypeError
      end
  | None => Throw TypeError
  end.

Definition PARSE_LINK_HEADER_MAXLEN : nat := 2000.

Definition parseLinkHeader (linkHeader : JSValue) : Completion JSValue :=
  if negb (truthy linkHeader) then Return JNull
  else
    match linkHeader with
    | JStr s =>
        if Nat.ltb PARSE_LINK_HEADER_MAXLEN (String.length s) then Return JNull
        else
          let links :=
            map parseLink (split linkSeparator (list_ascii_of_string s)) in
          let* rels := foldl intoRels (Return ∅) (filter hasRel links) in
          Return (JObj rels)
    | JArr items =>
        if Nat.ltb PARSE_LINK_HEADER_MAXLEN (length items) then Return JNull
        else Throw TypeError
    | _ => Throw TypeError
    end.

End ParseLinkHeader.

(** ** License colours *)

Module Licenses.

Record LicenseType : Type := {
  spdxLicenseIds : list string;
  aliases : list string;
  type_color : string;
  type_priority : JSValue
}.

(** The entries of [licenseToColorMap] and the fallback entry. *)
Record ColorEntry : Type := { color : string; priority : JSValue }.

Definition permissive : LicenseType := {|
  spdxLicenseIds := [
    "AFL-3.0"; "Apache-2.0"; "Artistic-2.0"; "BSD-2-Clause"; "BSD-3-Clause";
    "BSD-3-Clause-Clear"; "BSL-1.0"; "CC-BY-4.0"; "ECL-2.0"; "ISC"; "MIT";
    "MS-PL"; "NCSA"; "PostgreSQL"; "Zlib"
  ];
  aliases := ["BSD"; "Apache 2.0"];
  type_color := "green";
  type_priority := JStr "2"
|}.

Definition copyleft : LicenseType := {|
  spdxLicenseIds := [
    "AGPL-1.0-only"; "AGPL-1.0-or-later"; "AGPL-3.0-only";
    "AGPL-3.0-or-later"; "CC-BY-SA-4.0"; "EPL-1.0"; "EPL-2.0"; "EUPL-1.1";
    "GPL-1.0-only"; "GPL-1.0-or-later"; "GPL-2.0-only"; "GPL-2.0-or-later";
    "GPL-3.0-only"; "GPL-3.0-or-later"; "LGPL-2.0-only"; "LGPL-2.0-or-later";
    "LGPL-2.1-only"; "LGPL-2.1-or-later"; "LGPL-3.0-only";
    "LGPL-3.0-or-later"; "LPPL-1.3c"; "MPL-2.0"; "MS-RL"; "OFL-1.1";
    "OSL-3.0"
  ];
  aliases := [
    "GPL"; "GPL-2.0"; "GPL-3.0"; "GPLv2"; "GPLv2+"; "GPLv3"; "GPLv3+"; "LGPL";
    "LGPL-2.1"; "LGPL-3.0"; "LGPLv2"; "LGPLv2+"; "LGPLv3"; "LGPLv3+";
    "AGPL-3.0"; "AGPLv3+"; "MPL"; "MPL 1.1"; "MPL 2.0"; "EPL"
  ];
  type_color := "orange";
  type_priority := JStr "1"
|}.

Definition public_domain : LicenseType := {|
  spdxLicenseIds := ["CC0-1.0"; "Unlicense"; "WTFPL"; "0BSD"];
  aliases := ["CC0"];
  type_color := "7cd958";
  type_priority := JStr "3"
|}.

(** [licenseTypes], in the order [Object.keys] lists its keys. *)
Definition licenseTypes : list (string * LicenseType) := [
  ("permissive", permissive);
  ("copyleft", copyleft);
  ("public-domain", public_domain)
].

(** The body of the [forEach] over the license types: every identifier, then
    every alias, is assigned the colour and the priority of its type. *)
Definition addLicenseType (m : gmap string ColorEntry)
  (entry : string * LicenseType) : gmap string ColorEntry :=
  let t := snd entry in
  let e := {| color := type_color t; priority := type_priority t |} in
  let m1 := foldl (fun acc license => <[license := e]> acc) m
              (spdxLicenseIds t) in
  foldl (fun acc license => <[license := e]> acc) m1 (aliases t).

Definition licenseToColorMap : gmap string ColorEntry :=
  foldl addLicenseType ∅ licenseTypes.

(** The property names an object literal inherits from [Object.prototype]:
    [licenseToColorMap] starts as [{}], so reading one of these names from
    it yields the inherited function or object instead of [undefined]. *)
Definition inheritedNames : list string := objectPrototypeNames.

(** What [licenseToColorMap[license]] evaluates to: an entry the loop put
    there, an inherited value (truthy, with neither [color] nor [priority]),
    or [undefined]. *)
Inductive MapValue : Type :=
  | OwnEntry (e : ColorEntry)
  | InheritedValue (name : string)
  | NoValue.

Definition readMap (license : string) : MapValue :=
  match licenseToColorMap !! license with
  | Some e => OwnEntry e
  | None =>
      if bool_decide (license ∈ inheritedNames) then InheritedValue license
      else NoValue
  end.

(** [Boolean(v)]. *)
Definition Boolean (v : MapValue) : bool :=
  match v with
  | OwnEntry _ | InheritedValue _ => true
  | NoValue => false
  end.

(** [v.priority] and [v.color]. *)
Definition priorityValue (v : MapValue) : JSValue :=
  match v with
  | OwnEntry e => priority e
  | InheritedValue _ | NoValue => JUndefined
  end.

Definition colorValue (v : MapValue) : JSValue :=
  match v with
  | OwnEntry e => JStr (color e)
  | InheritedValue _ | NoValue => JUndefined
  end.

(** The priority of an array element as a number, 0 where it is not one. *)
Definition priorityOf (v : MapValue) : Z :=
  default 0 (ToNumber (priorityValue v)).

(** The compare function [(a, b) => b.priority - a.priority]; a NaN result
    counts as 0. *)
Definition byPriority (a b : MapValue) : Z :=
  match ToNumber (priorityValue b), ToNumber (priorityValue a) with
  | Some pb, Some pa => pb - pa
  | _, _ => 0
  end.

(** [Array.prototype.sort]: a stable sort; an element moves behind another
    only when the compare function is positive on them.  The order is the
    one every engine produces when the compare function is consistent, as it
    is on arrays of table entries and on an inherited value beside the
    fallback entry.  An inherited value among entries of different
    priorities compares as equal to each of them, which is not consistent:
    the standard then leaves the order to the engine, and the order here is
    one of the orders an engine may produce. *)
Fixpoint insertSorted {A : Type} (cmp : A -> A -> Z) (x : A) (l : list A)
  : list A :=
  match l with
  | [] => [x]
  | y :: l' => if Z.ltb 0 (cmp x y) then y :: insertSorted cmp x l' else x :: l
  end.

Fixpoint sort {A : Type} (cmp : A -> A -> Z) (l : list A) : list A :=
  match l with
  | [] => []
  | x :: l' => insertSorted cmp x (sort cmp l')
  end.

(** The argument of [licenseToColor]: a license or an array of licenses. *)
Inductive LicenseArg : Type :=
  | License (license : string)
  | LicenseList (licenses : list string).

(** [if (!Array.isArray(licenses)) licenses = [licenses]]. *)
Definition toLicenseList (licenses : LicenseArg) : list string :=
  match licenses with
  | License license => [license]
  | LicenseList l => l
  end.

Definition fallbackEntry : ColorEntry :=
  {| color := "lightgrey"; priority := JNum 0 |}.

(** [.map(license => licenseToColorMap[license]).filter(Boolean)]. *)
Definition mappedValues (licenses : list string) : list MapValue :=
  filter (fun v => Boolean v = true) (map readMap licenses).

(** The first element of the sorted array is destructured for its [color];
    an empty array would make that a TypeError. *)
Definition licenseToColor (licenses : LicenseArg) : Completion JSValue :=
  let licenses := toLicenseList licenses in
  match
    sort byPriority (mappedValues licenses ++ [OwnEntry fallbackEntry])%list
  with
  | v :: _ => Return (colorValue v)
  | [] => Throw TypeError
  end.

End Licenses.

(** ** Stand-ins for imports and for the provider, used to run the code *)

Module Fixtures.

(** Modelled from the spec: the provider lists items through link-based
    pagination of a per-page-limited listing, so a listing of [total] items
    served [perPage] to a page ends on page ceil(total / perPage).  The
    provider is not part of the repository. *)
Definition lastPageOf (total perPage : Z) : Z :=
  (total + perPage - 1) / perPage.

(** A validator for [nonNegativeInteger] (validators.js is not among the
    sources): a required number that is at least 0. *)
Definition nonNegativeInteger : Joi.Schema :=
  fun v =>
    match v with
    | JNum n => Z.leb 0 n
    | _ => false
    end.

(** A formatter for [metric] (text-formatters.js is not among the sources):
    the decimal numeral of a count, the string itself for a string. *)
Definition metric (v : JSValue) : string :=
  match v with
  | JNum n => pretty n
  | JStr s => s
  | _ => "NaN"
  end.

(** Stand-ins for [transformErrors] and [errorMessagesFor]
    (github-helpers.js is not among the sources), which the service only
    hands on to the request layer. *)
Definition transformErrors : JSValue := JStr "transformErrors".

Definition errorMessagesFor (notFoundMessage : string) : JSValue :=
  JObj {[ "404" := JStr notFoundMessage ]}.

(** A text for built-in functions, in the form V8 prints them (the
    function inherited as [constructor] is named Object). *)
Definition nativeFunctionText (name : string) : string :=
  "function "
  ++ (if String.eqb name "constructor" then "Object" else name)
  ++ "() { [native code] }".

(** A base class whose [defaultBadgeData] is the empty object. *)
Definition emptyBadgeData : JSValue := JObj ∅.

(** The double quote as a string. *)
Definition q : string := String ParseLinkHeader.dquote "".

(** A [Link] header as the provider sends it on the first page of a listing
    of 42 items served one to a page. *)
Definition linkNextLast : string :=
  "<https://api.github.com/repositories/1234/commits?author=jnullj&per_page=1&page=2>; rel="
  ++ q ++ "next" ++ q
  ++ ", <https://api.github.com/repositories/1234/commits?author=jnullj&per_page=1&page=42>; rel="
  ++ q ++ "last" ++ q.

(** A [Link] header that names no last page. *)
Definition linkFirstOnly : string :=
  "<https://api.github.com/repositories/1234/commits?author=jnullj&per_page=1&page=1>; rel="
  ++ q ++ "first" ++ q.

(** A response with the given headers. *)
Definition response (headers : list (string * JSValue)) : JSValue :=
  JObj {[ "headers" := JObj (list_to_map headers) ]}.

Definition commit (sha : string) : JSValue := JObj {[ "sha" := JStr sha ]}.

(** A payload for a branch with 457 commits. *)
Definition payloadWithHistory : JSValue :=
  JObj {[ "data" := JObj {[ "repository" := JObj {[ "object" :=
    JObj {[ "history" := JObj {[ "totalCount" := JNum 457 ]} ]} ]} ]} ]}.

(** The body the provider sends with its not-found status, behind any
    headers. *)
Definition notFoundResult : GitHubCommitActivity.RestResult :=
  {| GitHubCommitActivity.res := response [];
     GitHubCommitActivity.buffer := JObj {[ "message" := JStr "Not Found" ]} |}.

(** What [_request] resolves to for an author with one commit (no [Link]
    header), for a header that names no last page, and on the first page of
    a listing of 42 commits. *)
Definition oneCommitNoLink : GitHubCommitActivity.RestResult :=
  {| GitHubCommitActivity.res := response [];
     GitHubCommitActivity.buffer := JArr [commit "6dcb09b"] |}.

Definition oneCommitFirstOnly : GitHubCommitActivity.RestResult :=
  {| GitHubCommitActivity.res := response [("link", JStr linkFirstOnly)];
     GitHubCommitActivity.buffer := JArr [commit "6dcb09b"] |}.

Definition oneCommitOfMany : GitHubCommitActivity.RestResult :=
  {| GitHubCommitActivity.res := response [("link", JStr linkNextLast)];
     GitHubCommitActivity.buffer := JArr [commit "6dcb09b"] |}.

(** A world in which the listing of the author's commits has 42 items and
    the branch has 457 commits, read on 2024-11-02 at 18:10:00.123 UTC. *)
Definition world42 : GitHubCommitActivity.World :=
  {| GitHubCommitActivity.clock := 1730571000123;
     GitHubCommitActivity._request := fun _ => Return oneCommitOfMany;
     GitHubCommitActivity._requestGraphql := fun _ =>
       Return payloadWithHistory |}.

(** The handler with the stand-ins for its imports. *)
Definition handle0 :=
  GitHubCommitActivity.handle metric nonNegativeInteger transformErrors
    errorMessagesFor ParseLinkHeader.parseLinkHeader nativeFunctionText.

(** The badge of jnullj's commits to badges/shields over the last month. *)
Definition authorCount (w : GitHubCommitActivity.World)
  : GitHubCommitActivity.Svc GitHubCommitActivity.Badge :=
  handle0 w "m" "badges" "shields" None (Some "jnullj").

End Fixtures.

(** ** Calendar days *)

Module Calendar.

(** The number of days of month [m] (0 = January) in a year with leap flag
    [leap]. *)
Definition daysInMonth (m leap : Z) : Z :=
  match m with
  | 1 => 28 + leap
  | 3 | 5 | 8 | 10 => 30
  | _ => 31
  end.

(** The leap flag of a year. *)
Definition leapFlag (y : Z) : Z :=
  if Z.eqb (Date.DaysInYear y) 366 then 1 else 0.

End Calendar.

(** ** License badges *)

Module LicenseBadge.

(** The names a license type lists, identifiers first, and the entry the
    construction loop assigns to each of them. *)
Definition namesOf (t : Licenses.LicenseType) : list string :=
  (Licenses.spdxLicenseIds t ++ Licenses.aliases t)%list.

Definition entryOf (t : Licenses.LicenseType) : Licenses.ColorEntry :=
  {| Licenses.color := Licenses.type_color t;
     Licenses.priority := Licenses.type_priority t |}.

(** Does the array of licenses hold a name of the type? *)
Definition hasType (t : Licenses.LicenseType) (licenses : list string)
  : Prop :=
  exists l, l ∈ licenses /\ l ∈ namesOf t.

(** The colours the table and the fallback hold. *)
Definition knownColours : list JSValue :=
  [JStr "green"; JStr "orange"; JStr "7cd958"; JStr "lightgrey"].

(** What [renderLicenseBadge] returns. *)
Record Badge : Type := { message : string; color : JSValue }.

(** [licenses.join(sep)] on an array of strings. *)
Definition join (sep : string) (licenses : list string) : string :=
  String.concat sep licenses.

Section Render.

(** [toArray] of core/base-service/to-array.js, which is not among the
    sources. *)
Variable toArray : JSValue -> list string.

(** [if (licenses === undefined) licenses = toArray(license)]: [licenses]
    is an array or [undefined]. *)
Definition effectiveLicenses (license : JSValue)
  (licenses : option (list string)) : list string :=
  match licenses with
  | None => toArray license
  | Some l => l
  end.

(** [renderLicenseBadge({ license, licenses, color })]. *)
Definition renderLicenseBadge (license : JSValue)
  (licenses : option (list string)) (color : JSValue) : Completion Badge :=
  let licenses := effectiveLicenses license licenses in
  if Nat.eqb (length licenses) 0
  then Return {| message := "missing"; color := JStr "red" |}
  else
    let message := join ", " licenses in
    let* color :=
      if truthy color then Return color
      else Licenses.licenseToColor (Licenses.LicenseList licenses) in
    Return {| message := message; color := color |}.

End Render.

End LicenseBadge.

(** ** The files of a pull request (the docusaurus-swizzled-warning action)

    [getAllFilesForPullRequest] calls [client.request] and reads the answer
    on the spot.  The client is a function from the request to the value it
    answers with, or to what it throws; what the loop does is logged, the
    requests and the [console.log] calls alike.  The loop has no bound of its
    own, so a run is given the number of requests it may make, and [None]
    says that it was still going when they were used up. *)

Module PullRequestFiles.

(** The route and the parameters of [client.request]. *)
Record FilesRequest : Type := {
  route : string;
  owner : string;
  repo : string;
  pull_number : Z;
  per_page : Z;
  page : Z
}.

Inductive Event : Type :=
  | Requested (r : FilesRequest)
  | Logged (label : string) (data : JSValue).

(** The requests among the events of a run, oldest first. *)
Definition requestsIn (trace : list Event) : list FilesRequest :=
  omap (fun ev => match ev with
                  | Requested r => Some r
                  | Logged _ _ => None
                  end) trace.

(** [v.length]: the length of an array or of a string, an own property of
    an object, a TypeError on [undefined] and [null]. *)
Definition lengthOf (v : JSValue) : Completion JSValue :=
  match v with
  | JUndefined | JNull => Throw TypeError
  | JArr items => Return (JNum (Z.of_nat (length items)))
  | JStr s => Return (JNum (Z.of_nat (String.length s)))
  | JObj props => Return (default JUndefined (props !! "length"))
  | JBool _ | JNum _ => Return JUndefined
  end.

(** [v === n] against a number literal. *)
Definition strictEqNum (v : JSValue) (n : Z) : bool :=
  match v with
  | JNum m => Z.eqb m n
  | _ => false
  end.

(** [allFiles.concat(v)]: the elements of an array, anything else as one
    element. *)
Definition concatValue (allFiles : list JSValue) (v : JSValue)
  : list JSValue :=
  match v with
  | JArr items => (allFiles ++ items)%list
  | _ => (allFiles ++ [v])%list
  end.

Definition perPage : Z := 100.

(** The request for one page. *)
Definition filesRequest (owner repo : string) (pullNumber page : Z)
  : FilesRequest :=
  {| route := "GET /repos/{owner}/{repo}/pulls/{pull_number}/files";
     owner := owner;
     repo := repo;
     pull_number := pullNumber;
     per_page := perPage;
     page := page |}.

(** What the loop does for a run of pages that hold items, from page
    [page] on: a request and a [console.log] for each. *)
Fixpoint pageEvents (owner repo : string) (pullNumber page : Z)
  (pages : list (list JSValue)) : list Event :=
  match pages with
  | [] => []
  | items :: pages' =>
      Requested (filesRequest owner repo pullNumber page)
      :: Logged "res_data:s" (JArr items)
      :: pageEvents owner repo pullNumber (page + 1) pages'
  end.

Section Client.

Variable client : FilesRequest -> Completion JSValue.

(** The [while (true)] loop from the state it is in: at most [fuel]
    requests. *)
Fixpoint collect (fuel : nat) (owner repo : string) (pullNumber page : Z)
  (allFiles : list JSValue) (trace : list Event)
  : option (Completion (list JSValue) * list Event) :=
  match fuel with
  | O => None
  | S fuel' =>
      let trace1 :=
        (trace ++ [Requested (filesRequest owner repo pullNumber page)])%list
      in
      match
        let* response := client (filesRequest owner repo pullNumber page) in
        let* data := GetV response "data" in
        let* len := lengthOf data in
        Return (data, len)
      with
      | Throw e => Some (Throw e, trace1)
      | Return (data, len) =>
          if strictEqNum len 0 then Some (Return allFiles, trace1)
          else
            collect fuel' owner repo pullNumber (page + 1)
              (concatValue allFiles data)
              (trace1 ++ [Logged "res_data:s" data])%list
      end
  end.

(** The client answers the request for a page with a response whose [data]
    is the array of these items. *)
Definition servesPage (owner repo : string) (pullNumber page : Z)
  (items : list JSValue) : Prop :=
  exists response,
    client (filesRequest owner repo pullNumber page) = Return response /\
    GetV response "data" = Return (JArr items).

Definition getAllFilesForPullRequest (fuel : nat) (owner repo : string)
  (pullNumber : Z) : option (Completion (list JSValue) * list Event) :=
  collect fuel owner repo pullNumber 1 [] [].

End Client.

End PullRequestFiles.

(** ** Clients and inputs to run the added code on *)

Module Samples.

(** A file of a pull request. *)
Definition file (filename : string) : JSValue :=
  JObj {[ "filename" := JStr filename ]}.

(** An answer of the client with the given files. *)
Definition answer (files : list JSValue) : JSValue :=
  JObj {[ "data" := JArr files ]}.

(** The pages of a pull request that changes three files, two to a page. *)
Definition twoPages : list (list JSValue) :=
  [[file "package.json"; file "package-lock.json"]; [file "README.md"]].

(** A client that serves [twoPages] and nothing after them. *)
Definition pagedClient (r : PullRequestFiles.FilesRequest)
  : Completion JSValue :=
  Return (answer (default []
                    (twoPages !! Z.to_nat (PullRequestFiles.page r - 1)))).

(** A client with one more file on every page. *)
Definition endlessClient (r : PullRequestFiles.FilesRequest)
  : Completion JSValue :=
  Return (answer [file "package-lock.json"]).

(** Clients that serve [twoPages] and then fail: with a rate limit, or with
    an answer that has no [data]. *)
Definition limitedClient (r : PullRequestFiles.FilesRequest)
  : Completion JSValue :=
  match twoPages !! Z.to_nat (PullRequestFiles.page r - 1) with
  | Some files => Return (answer files)
  | None => Throw (Failure RateLimited "API rate limit exceeded")
  end.

Definition truncatedClient (r : PullRequestFiles.FilesRequest)
  : Completion JSValue :=
  match twoPages !! Z.to_nat (PullRequestFiles.page r - 1) with
  | Some files => Return (answer files)
  | None => Return (JObj ∅)
  end.

End Samples.

(** * Properties *)

(** ** The commit-activity service *)

Module CommitActivityProofs.

Import GitHubCommitActivity.

Lemma GetV_object props k :
  GetV (JObj props) k = Return (field (JObj props) k).
Proof. reflexivity. Qed.

Lemma required_object_inv keys v :
  Joi.required (Joi.object keys) v = true ->
  exists props, v = JObj props /\
    forallb (fun ks => snd ks (field v (fst ks))) keys = true.
Proof.
  destruct v; simpl; try discriminate.
  intros H. eexists. split; [reflexivity | exact H].
Qed.

Lemma object_inv keys v :
  Joi.object keys v = true ->
  v = JUndefined \/
  exists props, v = JObj props /\
    forallb (fun ks => snd ks (field v (fst ks))) keys = true.
Proof.
  destruct v; simpl; try discriminate; eauto.
Qed.

Section Transform.

Variable nonNegativeInteger : Joi.Schema.

(** What validation guarantees: the payload is an object down to
    [data.repository], and [object], when there, is an object with an object
    [history]. *)
Lemma schema_shape json :
  schema nonNegativeInteger json = true ->
  exists pj pd pr,
    json = JObj pj /\ field json "data" = JObj pd /\
    field (JObj pd) "repository" = JObj pr /\
    (repositoryObject json = JUndefined \/
     exists po ph, repositoryObject json = JObj po /\
                   field (JObj po) "history" = JObj ph).
Proof.
  unfold schema. intros H.
  apply required_object_inv in H as (pj & -> & H).
  cbn [forallb fst snd] in H. rewrite andb_true_r in H.
  apply required_object_inv in H as (pd & Hd & H).
  cbn [forallb fst snd] in H. rewrite andb_true_r in H.
  apply required_object_inv in H as (pr & Hr & H).
  cbn [forallb fst snd] in H. rewrite andb_true_r in H.
  exists pj, pd, pr. rewrite Hd in Hr |- *. split; [reflexivity|].
  split; [reflexivity|]. split; [exact Hr|].
  unfold repositoryObject. rewrite Hd, Hr. rewrite Hd, Hr in H.
  apply object_inv in H as [H | (po & Ho & H)]; [left; exact H|].
  right. cbn [forallb fst snd] in H. rewrite andb_true_r in H.
  apply required_object_inv in H as (ph & Hh & _).
  exists po, ph. rewrite Ho in Hh |- *. split; [reflexivity | exact Hh].
Qed.

(** C8.  On every payload the schema lets through, [transform] throws
    InvalidResponse with the message 'invalid branch' exactly when
    [data.repository.object] is null or absent, and otherwise returns
    [data.repository.object.history.totalCount] as it stands. *)
Theorem transform_invalid_branch_iff (json : JSValue) :
  schema nonNegativeInteger json = true ->
  (transform json = Throw (Failure InvalidResponse "invalid branch") <->
   (repositoryObject json = JNull \/ repositoryObject json = JUndefined)) /\
  (repositoryObject json <> JNull ->
   repositoryObject json <> JUndefined ->
   transform json =
   Return (field (field (repositoryObject json) "history") "totalCount")).
Proof.
  intros H.
  destruct (schema_shape json H) as (pj & pd & pr & -> & Hd & Hr & Ho).
  assert (Ht : transform (JObj pj) =
               if negb (truthy (repositoryObject (JObj pj)))
               then Throw (Failure InvalidResponse "invalid branch")
               else let* history :=
                      GetV (repositoryObject (JObj pj)) "history" in
                    GetV history "totalCount").
  { unfold transform, repositoryObject.
    rewrite GetV_object. cbn [bind]. rewrite Hd, GetV_object. cbn [bind].
    rewrite Hr, GetV_object. cbn [bind]. reflexivity. }
  rewrite Ht. clear Ht.
  destruct Ho as [Ho | (po & ph & Ho & Hh)]; rewrite Ho.
  - cbn. split; [split; auto | congruence].
  - cbn [truthy negb]. rewrite GetV_object. cbn [bind]. rewrite Hh.
    rewrite GetV_object. split; [|reflexivity].
    split; [discriminate | intros [? | ?]; discriminate].
Qed.

End Transform.

Lemma transform_invalid_branch_iff_witness :
  schema Fixtures.nonNegativeInteger Fixtures.payloadWithHistory = true /\
  transform Fixtures.payloadWithHistory = Return (JNum 457).
Proof.
  split; [vm_compute; reflexivity|].
  refine (proj2 (transform_invalid_branch_iff Fixtures.nonNegativeInteger
                   Fixtures.payloadWithHistory _) _ _).
  - vm_compute. reflexivity.
  - vm_compute. discriminate.
  - vm_compute. discriminate.
Defined.

Section AuthorFilter.

Variable parseLinkHeader : JSValue -> Completion JSValue.

Lemma transformAuthorFilter_unfold r message :
  GetV (buffer r) "message" = Return message ->
  strictEqStr message "Not Found" = false ->
  transformAuthorFilter parseLinkHeader r =
  let* link := linkOf r in
  let* parsed := parseLinkHeader link in
  if negb (truthy parsed) then Return (JNum 0)
  else let* last := GetV parsed "last" in GetV last "page".
Proof.
  intros Hm Hne. unfold transformAuthorFilter, linkOf.
  rewrite Hm. cbn [bind]. rewrite Hne.
  destruct (GetV (res r) "headers"); reflexivity.
Qed.

(** Without parsed pagination the count is the number 0, whatever the body
    lists. *)
Lemma transformAuthorFilter_no_pagination r message link parsed :
  GetV (buffer r) "message" = Return message ->
  strictEqStr message "Not Found" = false ->
  linkOf r = Return link ->
  parseLinkHeader link = Return parsed ->
  truthy parsed = false ->
  transformAuthorFilter parseLinkHeader r = Return (JNum 0).
Proof.
  intros Hm Hne Hl Hp Ht.
  rewrite (transformAuthorFilter_unfold r message Hm Hne), Hl.
  cbn [bind]. rewrite Hp. cbn [bind]. rewrite Ht. reflexivity.
Qed.

(** With parsed pagination the result is [parsed.last.page], read as is. *)
Lemma transformAuthorFilter_pagination r message link parsed :
  GetV (buffer r) "message" = Return message ->
  strictEqStr message "Not Found" = false ->
  linkOf r = Return link ->
  parseLinkHeader link = Return parsed ->
  truthy parsed = true ->
  transformAuthorFilter parseLinkHeader r =
  let* last := GetV parsed "last" in GetV last "page".
Proof.
  intros Hm Hne Hl Hp Ht.
  rewrite (transformAuthorFilter_unfold r message Hm Hne), Hl.
  cbn [bind]. rewrite Hp. cbn [bind]. rewrite Ht. reflexivity.
Qed.

(** C1, on the code.  A response without parsed pagination whose body lists
    exactly one item is counted as 0, not as 1: the count of a response
    without pagination never depends on the items returned. *)
Theorem one_item_without_pagination_counts_zero (r : RestResult)
  (link : JSValue) :
  linkOf r = Return link ->
  parseLinkHeader link = Return JNull ->
  itemsReturned (buffer r) = Some 1%nat ->
  transformAuthorFilter parseLinkHeader r = Return (JNum 0).
Proof.
  intros Hl Hp Hitems.
  apply (transformAuthorFilter_no_pagination r JUndefined link JNull);
    try assumption; try reflexivity.
  destruct (buffer r); try discriminate Hitems. reflexivity.
Qed.

(** C2, on the code.  Pagination metadata that is there but has no relation
    [last] (a header that names other relations only, or one that does not
    parse, for which the parser has an empty object) ends in a TypeError,
    which is not a classified failure. *)
Theorem pagination_without_last_is_type_error (r : RestResult)
  (message link : JSValue) (props : gmap string JSValue) :
  GetV (buffer r) "message" = Return message ->
  strictEqStr message "Not Found" = false ->
  linkOf r = Return link ->
  parseLinkHeader link = Return (JObj props) ->
  props !! "last" = None ->
  transformAuthorFilter parseLinkHeader r = Throw TypeError /\
  ~ classifiedAs InvalidResponse (transformAuthorFilter parseLinkHeader r).
Proof.
  intros Hm Hne Hl Hp Hlast.
  assert (H : transformAuthorFilter parseLinkHeader r = Throw TypeError).
  { rewrite (transformAuthorFilter_pagination r message link (JObj props));
      try assumption; [|reflexivity].
    cbn [GetV bind]. rewrite Hlast. reflexivity. }
  split; [exact H|]. rewrite H. intros [msg Hc]. discriminate Hc.
Qed.

(** C3, on the code.  When the parser read the page of the relation [last]
    as a string, as it does for the page of a link target, the count comes
    back as that string and not as a number. *)
Theorem last_page_comes_back_as_string (r : RestResult)
  (message link parsed last : JSValue) (page : string) :
  GetV (buffer r) "message" = Return message ->
  strictEqStr message "Not Found" = false ->
  linkOf r = Return link ->
  parseLinkHeader link = Return parsed ->
  truthy parsed = true ->
  GetV parsed "last" = Return last ->
  GetV last "page" = Return (JStr page) ->
  transformAuthorFilter parseLinkHeader r = Return (JStr page) /\
  isNumber (JStr page) = false.
Proof.
  intros Hm Hne Hl Hp Ht Hlast Hpage.
  rewrite (transformAuthorFilter_pagination r message link parsed);
    try assumption.
  rewrite Hlast. cbn [bind]. rewrite Hpage. split; reflexivity.
Qed.

(** C4, as the code has it.  A response whose body carries the message
    'Not Found' and that reaches [transformAuthorFilter] is classified
    InvalidResponse, with the message 'invalid branch', whatever its headers
    say. *)
Theorem not_found_body_is_invalid_response (r : RestResult) :
  GetV (buffer r) "message" = Return (JStr "Not Found") ->
  transformAuthorFilter parseLinkHeader r =
    Throw (Failure InvalidResponse "invalid branch") /\
  classifiedAs InvalidResponse (transformAuthorFilter parseLinkHeader r).
Proof.
  intros Hm.
  assert (H : transformAuthorFilter parseLinkHeader r =
              Throw (Failure InvalidResponse "invalid branch")).
  { unfold transformAuthorFilter. rewrite Hm. reflexivity. }
  split; [exact H|]. rewrite H. eexists. reflexivity.
Qed.

End AuthorFilter.

Lemma not_found_body_is_invalid_response_witness :
  transformAuthorFilter ParseLinkHeader.parseLinkHeader
    Fixtures.notFoundResult
  = Throw (Failure InvalidResponse "invalid branch") /\
  classifiedAs InvalidResponse
    (transformAuthorFilter ParseLinkHeader.parseLinkHeader
       Fixtures.notFoundResult).
Proof.
  apply (not_found_body_is_invalid_response ParseLinkHeader.parseLinkHeader
           Fixtures.notFoundResult).
  reflexivity.
Defined.

(** C4, as the claim has it, fails: the not-found body is not classified
    NotFound. *)
Lemma not_found_body_is_not_NotFound :
  GetV (buffer Fixtures.notFoundResult) "message"
  = Return (JStr "Not Found") /\
  ~ classifiedAs NotFound
      (transformAuthorFilter ParseLinkHeader.parseLinkHeader
         Fixtures.notFoundResult).
Proof.
  split; [reflexivity|].
  intros [msg H]. vm_compute in H. discriminate H.
Qed.

Lemma one_item_without_pagination_counts_zero_witness :
  itemsReturned (buffer Fixtures.oneCommitNoLink) = Some 1%nat /\
  transformAuthorFilter ParseLinkHeader.parseLinkHeader
    Fixtures.oneCommitNoLink = Return (JNum 0).
Proof.
  split; [reflexivity|].
  apply (one_item_without_pagination_counts_zero
           ParseLinkHeader.parseLinkHeader Fixtures.oneCommitNoLink
           JUndefined); reflexivity.
Defined.

Lemma pagination_without_last_is_type_error_witness :
  transformAuthorFilter ParseLinkHeader.parseLinkHeader
    Fixtures.oneCommitFirstOnly = Throw TypeError /\
  ~ classifiedAs InvalidResponse
      (transformAuthorFilter ParseLinkHeader.parseLinkHeader
         Fixtures.oneCommitFirstOnly).
Proof.
  eapply (pagination_without_last_is_type_error
            ParseLinkHeader.parseLinkHeader Fixtures.oneCommitFirstOnly
            JUndefined (JStr Fixtures.linkFirstOnly)).
  - reflexivity.
  - reflexivity.
  - reflexivity.
  - vm_compute. reflexivity.
  - vm_compute. reflexivity.
Defined.

(** The same for a header that does not parse at all. *)
Lemma unparseable_link_is_type_error :
  ParseLinkHeader.parseLinkHeader (JStr "garbage") = Return (JObj ∅) /\
  transformAuthorFilter ParseLinkHeader.parseLinkHeader
    {| res := Fixtures.response [("link", JStr "garbage")];
       buffer := JArr [Fixtures.commit "6dcb09b"] |}
  = Throw TypeError.
Proof. split; vm_compute; reflexivity. Qed.

Lemma last_page_comes_back_as_string_witness :
  transformAuthorFilter ParseLinkHeader.parseLinkHeader
    Fixtures.oneCommitOfMany = Return (JStr "42") /\
  isNumber (JStr "42") = false.
Proof.
  eapply (last_page_comes_back_as_string
            ParseLinkHeader.parseLinkHeader Fixtures.oneCommitOfMany
            JUndefined (JStr Fixtures.linkNextLast)).
  - reflexivity.
  - reflexivity.
  - reflexivity.
  - vm_compute. reflexivity.
  - reflexivity.
  - vm_compute. reflexivity.
  - vm_compute. reflexivity.
Defined.

(** *** Dates *)

Lemma DayFromYear_succ y :
  Date.DayFromYear (y + 1) = Date.DayFromYear y + Date.DaysInYear y.
Proof.
  unfold Date.DayFromYear, Date.DaysInYear.
  destruct (Z.eqb_spec (y mod 4) 0), (Z.eqb_spec (y mod 100) 0),
    (Z.eqb_spec (y mod 400) 0); cbn [negb];
    Z.div_mod_to_equations; lia.
Qed.

(** [YearFromTime] is the year the standard asks for: the largest one that
    starts at or before the time value. *)
Lemma YearFromTime_spec t :
  Date.TimeFromYear (Date.YearFromTime t) <= t
  < Date.TimeFromYear (Date.YearFromTime t + 1).
Proof.
  assert (Hd : Date.DayFromYear (Date.YearFromTime t) <= Date.Day t
               < Date.DayFromYear (Date.YearFromTime t + 1)).
  { unfold Date.YearFromTime. generalize (Date.Day t). intros d. cbv zeta.
    set (y := 1970 + d * 400 / 146097).
    destruct (Z.ltb_spec d (Date.DayFromYear y));
      [|destruct (Z.leb_spec (Date.DayFromYear (y + 1)) d)].
    - replace (y - 1 + 1) with y by lia. split; [|lia].
      unfold Date.DayFromYear in *. subst y. Z.div_mod_to_equations. lia.
    - split; [lia|].
      unfold Date.DayFromYear in *. subst y. Z.div_mod_to_equations. lia.
    - lia. }
  unfold Date.TimeFromYear, Date.Day, Date.msPerDay in *.
  Z.div_mod_to_equations. lia.
Qed.

(** The day within the year stays inside the year. *)
Lemma DayWithinYear_range t :
  0 <= Date.DayWithinYear t < Date.DaysInYear (Date.YearFromTime t).
Proof.
  pose proof (YearFromTime_spec t) as H.
  pose proof (DayFromYear_succ (Date.YearFromTime t)) as Hs.
  unfold Date.DayWithinYear, Date.TimeFromYear, Date.Day, Date.msPerDay in *.
  Z.div_mod_to_equations. lia.
Qed.

Lemma MonthFromTime_range t : 0 <= Date.MonthFromTime t <= 11.
Proof.
  unfold Date.MonthFromTime.
  repeat match goal with
         | |- context [if ?b then _ else _] => destruct b
         end; lia.
Qed.

(** The day of the month is one the calendar has. *)
Lemma DateFromTime_range t : 1 <= Date.DateFromTime t <= 31.
Proof.
  pose proof (DayWithinYear_range t) as Hd.
  unfold Date.DateFromTime, Date.MonthFromTime, Date.InLeapYear in *.
  destruct (Z.eqb_spec (Date.DaysInYear (Date.YearFromTime t)) 366) as [E | E].
  - rewrite E in Hd.
    repeat match goal with
           | |- context [if Z.ltb ?a ?b then _ else _] =>
               destruct (Z.ltb_spec a b)
           end; cbn [Date.daysBeforeMonth]; lia.
  - assert (E' : Date.DaysInYear (Date.YearFromTime t) = 365).
    { revert E. unfold Date.DaysInYear.
      repeat match goal with
             | |- context [if ?b then _ else _] => destruct b
             end; congruence. }
    rewrite E' in Hd.
    repeat match goal with
           | |- context [if Z.ltb ?a ?b then _ else _] =>
               destruct (Z.ltb_spec a b)
           end; cbn [Date.daysBeforeMonth]; lia.
Qed.

(** Moving the day of the month back by [k] moves the time value back by
    [k] days, across month and year ends alike. *)
Lemma setUTCDate_back t k :
  Date.setUTCDate t (Date.getUTCDate t - k) = t - k * Date.msPerDay.
Proof.
  pose proof (MonthFromTime_range t) as Hm.
  unfold Date.setUTCDate, Date.getUTCDate, Date.MakeDay, Date.MakeDate,
    Date.DateFromTime, Date.DayWithinYear, Date.TimeWithinDay, Date.Day.
  rewrite (Z.div_small (Date.MonthFromTime t) 12) by lia.
  rewrite (Z.mod_small (Date.MonthFromTime t) 12) by lia.
  rewrite Z.add_0_r.
  change (if Z.eqb (Date.DaysInYear (Date.YearFromTime t)) 366 then 1 else 0)
    with (Date.InLeapYear t).
  pose proof (Z.div_mod t Date.msPerDay ltac:(discriminate)) as Hdm.
  lia.
Qed.

(** The start date of the intervals counted in days: the clock reading moved
    back by 30 days for m and 4w, by 7 days for w. *)
Lemma getIntervalQueryStartDate_days now :
  getIntervalQueryStartDate now "m"
    = JStr (Date.toISOString (now - 30 * Date.msPerDay)) /\
  getIntervalQueryStartDate now "4w"
    = JStr (Date.toISOString (now - 30 * Date.msPerDay)) /\
  getIntervalQueryStartDate now "w"
    = JStr (Date.toISOString (now - 7 * Date.msPerDay)).
Proof.
  unfold getIntervalQueryStartDate. cbn [String.eqb Ascii.eqb orb].
  cbn -[Date.toISOString Date.setUTCDate Date.getUTCDate Date.msPerDay Z.mul
        Z.sub].
  rewrite !setUTCDate_back. repeat split; reflexivity.
Qed.

(** *** Requests and rendering *)

Section Handler.

Variable metric : JSValue -> string.
Variable nonNegativeInteger : Joi.Schema.
Variable transformErrors : JSValue.
Variable errorMessagesFor : string -> JSValue.
Variable parseLinkHeader : JSValue -> Completion JSValue.
Variable nativeFunctionText : string -> string.

Local Abbreviation handle :=
  (handle metric nonNegativeInteger transformErrors errorMessagesFor
     parseLinkHeader nativeFunctionText).
Local Abbreviation render := (render metric nativeFunctionText).
Local Abbreviation staticPreviews :=
  (staticPreviews metric nativeFunctionText).
Local Abbreviation fetchAuthorFilter := (fetchAuthorFilter errorMessagesFor).
Local Abbreviation fetchAuthorFilterRequest :=
  (fetchAuthorFilterRequest errorMessagesFor).
Local Abbreviation fetchRequest :=
  (fetchRequest nonNegativeInteger transformErrors).
Local Abbreviation requestOfHandle :=
  (requestOfHandle nonNegativeInteger transformErrors errorMessagesFor).

(** C5.  [fetchAuthorFilter] issues one request, which asks for a page size
    of exactly 1; on a listing served one item to a page the number of the
    last page is the number of items. *)
Theorem fetchAuthorFilter_page_size_one (w : World)
  (interval user repo : string) (branch authorFilter : option string) :
  exists r : RestRequest,
    requestsOf (fetchAuthorFilter w interval user repo branch authorFilter)
      = [RestCall r] /\
    per_page (searchParams r) = JStr "1" /\
    pageSize r = Some 1 /\
    forall total : Z,
      option_map (Fixtures.lastPageOf total) (pageSize r) = Some total.
Proof.
  eexists. split; [reflexivity|]. split; [reflexivity|].
  split; [reflexivity|]. intros total.
  change (Some (Fixtures.lastPageOf total 1) = Some total).
  unfold Fixtures.lastPageOf. rewrite Z.div_1_r. f_equal. lia.
Qed.

(** C6, as the code has it.  A run of [handle] issues exactly one request in
    all: with an author filter the REST request for one item to a page,
    without one the GraphQL request.  Which request it is depends on the
    parameters and the clock and on nothing a response says, so no further
    request follows the first, whatever the number of items. *)
Theorem handle_issues_one_request (w : World) (interval user repo : string)
  (branch authorFilter : option string) :
  requestsOf (handle w interval user repo branch authorFilter)
    = [requestOfHandle w interval user repo branch authorFilter] /\
  length (requestsOf (handle w interval user repo branch authorFilter))
    = 1%nat.
Proof.
  assert (H : requestsOf (handle w interval user repo branch authorFilter)
              = [requestOfHandle w interval user repo branch authorFilter]).
  { unfold requestsOf, GitHubCommitActivity.handle, requestOfHandle.
    destruct (truthy (ofOption authorFilter)).
    - unfold svc_bind, GitHubCommitActivity.fetchAuthorFilter, issueRest,
        svc_lift, svc_ret. cbn [app].
      destruct (_request w _); [|reflexivity].
      destruct (transformAuthorFilter _ _); reflexivity.
    - unfold svc_bind, GitHubCommitActivity.fetch, issueGraphql, svc_lift,
        svc_ret. cbn [app].
      destruct (_requestGraphql w _); [|reflexivity].
      destruct (transform _); reflexivity. }
  rewrite H. split; reflexivity.
Qed.

Lemma append_inv_head (a b c : string) : a ++ b = a ++ c -> b = c.
Proof.
  induction a as [|ch a IH]; cbn; [auto|].
  intros H. injection H as H. auto.
Qed.

Lemma append_empty (s : string) : s ++ "" = s.
Proof.
  induction s as [|ch s IH]; [reflexivity|].
  change (String ch (s ++ "") = String ch s). rewrite IH. reflexivity.
Qed.

(** The interpolated label of an interval the object literal has a key
    for. *)
Lemma intervalLabelText_own interval suffix :
  intervalLabels !! interval = Some suffix ->
  intervalLabelText nativeFunctionText interval = suffix.
Proof. unfold intervalLabelText. intros ->. reflexivity. Qed.

(** [render] on the class once it is defined. *)
Lemma render_once_defined interval commitCount authorFilter :
  render defaultBadgeData interval commitCount authorFilter
  = Return {| label := (if String.eqb interval "t" then "commits"
                        else "commit activity")
                       ++ authorFilterLabel authorFilter;
              message := metric commitCount
                         ++ intervalLabelText nativeFunctionText interval |}.
Proof.
  unfold GitHubCommitActivity.render.
  destruct (String.eqb interval "t"); reflexivity.
Qed.

(** The previews of [static examples], rendered before the class has a
    [defaultBadgeData] of its own. *)
Lemma staticPreviews_unfold inherited :
  staticPreviews inherited
  = let* l := GetV inherited "label" in
    let* text := ToString l in
    Return ({| label := text; message := metric (JNum 457) ++ "/month" |},
            {| label := text; message := metric (JNum 5) ++ "/month" |}).
Proof.
  unfold GitHubCommitActivity.staticPreviews, GitHubCommitActivity.render.
  change (String.eqb "m" "t") with false.
  cbn [authorFilterLabel ofOption truthy].
  destruct (GetV inherited "label") as [l|e]; [|reflexivity]. cbn [bind].
  destruct (ToString l) as [text|e]; [|reflexivity]. cbn [bind].
  rewrite append_empty. reflexivity.
Qed.

(** C10.  On the class once it is defined, [render] does what the claim
    says: for each of the intervals t, y, m, 4w and w the label is 'commits'
    followed by the author suffix exactly when the interval is t and 'commit
    activity' followed by it otherwise; the message is the formatted count
    followed by the label of the interval, '/month' for m and '/four weeks'
    for 4w, so the two messages differ although both intervals start at the
    same date, 30 days before the clock reading.  The two previews of
    [static examples], though, are rendered for the interval m while the
    class is still being defined, before its [defaultBadgeData] is: their
    label is the text of the label the base class provides, whatever that
    is -- 'undefined' when the inherited data has no label, a TypeError when
    there is no inherited data -- and 'commit activity' only when the base
    class says so itself. *)
Theorem static_previews_take_the_inherited_label (inherited : JSValue)
  (interval : string) (commitCount : JSValue) (authorFilter : option string) :
  (In interval ["t"; "y"; "m"; "4w"; "w"] ->
   exists badge suffix,
     render defaultBadgeData interval commitCount authorFilter = Return badge
     /\ intervalLabels !! interval = Some suffix
     /\ message badge = metric commitCount ++ suffix
     /\ label badge
        = (if String.eqb interval "t" then "commits" else "commit activity")
          ++ authorFilterLabel authorFilter
     /\ (label badge = "commits" ++ authorFilterLabel authorFilter
         <-> interval = "t")
     /\ (label badge = "commit activity" ++ authorFilterLabel authorFilter
         <-> interval <> "t")) /\
  render defaultBadgeData "m" commitCount authorFilter
    = Return {| label := "commit activity" ++ authorFilterLabel authorFilter;
                message := metric commitCount ++ "/month" |} /\
  render defaultBadgeData "4w" commitCount authorFilter
    = Return {| label := "commit activity" ++ authorFilterLabel authorFilter;
                message := metric commitCount ++ "/four weeks" |} /\
  metric commitCount ++ "/month" <> metric commitCount ++ "/four weeks" /\
  (forall now : Z,
     getIntervalQueryStartDate now "m" = getIntervalQueryStartDate now "4w" /\
     getIntervalQueryStartDate now "m"
       = JStr (Date.toISOString (now - 30 * Date.msPerDay))) /\
  (inherited = JUndefined \/ inherited = JNull ->
   staticPreviews inherited = Throw TypeError) /\
  (forall props,
     inherited = JObj props -> props !! "label" = None ->
     staticPreviews inherited
     = Return ({| label := "undefined";
                  message := metric (JNum 457) ++ "/month" |},
               {| label := "undefined";
                  message := metric (JNum 5) ++ "/month" |})) /\
  (forall first second,
     staticPreviews inherited = Return (first, second) ->
     label second = label first /\
     message first = metric (JNum 457) ++ "/month" /\
     message second = metric (JNum 5) ++ "/month" /\
     exists l,
       GetV inherited "label" = Return l /\
       ToString l = Return (label first)).
Proof.
  split.
  { intros Hin. rewrite render_once_defined.
    assert (Hs : exists suffix, intervalLabels !! interval = Some suffix).
    { cbn in Hin.
      destruct Hin as [<- | [<- | [<- | [<- | [<- | []]]]]];
        eexists; reflexivity. }
    destruct Hs as [suffix Hs]. eexists. exists suffix.
    split; [reflexivity|]. split; [exact Hs|].
    cbn [label message]. rewrite (intervalLabelText_own _ _ Hs).
    split; [reflexivity|]. split; [reflexivity|].
    destruct (String.eqb_spec interval "t") as [-> | Hne]; split.
    - split; reflexivity || auto.
    - split; [|congruence]. cbn. intros H. discriminate H.
    - split; [|contradiction]. cbn. intros H. discriminate H.
    - split; auto. }
  split; [apply render_once_defined|].
  split; [apply render_once_defined|].
  split.
  { intros H. apply append_inv_head in H. discriminate H. }
  split.
  { intros now. split; [reflexivity|].
    destruct (getIntervalQueryStartDate_days now) as (Hm & _). exact Hm. }
  rewrite staticPreviews_unfold. split; [|split].
  - intros [-> | ->]; reflexivity.
  - intros props -> Hnone. cbn [GetV]. rewrite Hnone. reflexivity.
  - intros first second H.
    destruct (GetV inherited "label") as [l|e]; [|discriminate H].
    cbn [bind] in H.
    destruct (ToString l) as [text|e] eqn:Ht; [|discriminate H].
    cbn [bind] in H. injection H as <- <-. cbn [label message].
    split; [reflexivity|]. split; [reflexivity|]. split; [reflexivity|].
    exists l. split; [reflexivity | exact Ht].
Qed.

End Handler.

(** C6, as the claim has it, fails: counting the commits of an author takes
    one request in all, so none follows the initial one. *)
Lemma author_count_takes_a_single_request :
  resultOf (Fixtures.authorCount Fixtures.world42)
    = Return {| label := "commit activity by jnullj";
                message := "42/month" |} /\
  length (requestsOf (Fixtures.authorCount Fixtures.world42)) = 1%nat /\
  length (requestsOf (Fixtures.authorCount Fixtures.world42)) <> (1 + 1)%nat.
Proof.
  split; [vm_compute; reflexivity|].
  split; [vm_compute; reflexivity|]. vm_compute. discriminate.
Qed.

Lemma static_previews_take_the_inherited_label_witness :
  staticPreviews Fixtures.metric Fixtures.nativeFunctionText
    Fixtures.emptyBadgeData
  = Return ({| label := "undefined"; message := "457/month" |},
            {| label := "undefined"; message := "5/month" |}) /\
  render Fixtures.metric Fixtures.nativeFunctionText defaultBadgeData "m"
    (JNum 457) (Some "chris48s")
  = Return {| label := "commit activity by chris48s";
              message := "457/month" |}.
Proof.
  destruct (static_previews_take_the_inherited_label Fixtures.metric
              Fixtures.nativeFunctionText Fixtures.emptyBadgeData "m"
              (JNum 457) (Some "chris48s"))
    as (_ & Hm & _ & _ & _ & _ & Hempty & _).
  split; [exact (Hempty ∅ eq_refl eq_refl) | exact Hm].
Defined.

(** C7, as the claim has it, fails: two runs for the same interval a day
    apart give different start dates. *)
Lemma start_date_differs_between_runs :
  getIntervalQueryStartDate 1730571000123 "w"
    = JStr "2024-10-26T18:10:00.123Z" /\
  getIntervalQueryStartDate 1730657400123 "w"
    = JStr "2024-10-27T18:10:00.123Z" /\
  getIntervalQueryStartDate 1730571000123 "w"
    <> getIntervalQueryStartDate 1730657400123 "w".
Proof.
  split; [vm_compute; reflexivity|].
  split; [vm_compute; reflexivity|]. vm_compute. discriminate.
Qed.

(** C7, as the code has it.  The start date is a function of the interval
    and of the clock reading: two runs agree when their clock readings agree,
    and for the interval t, whose start date is [null], whatever the clock
    says; for m and 4w it is the clock reading moved back by 30 days, for w
    by 7 days, in ISO format. *)
Theorem start_date_depends_on_clock_only (interval : string) (now1 now2 : Z) :
  interval = "t" \/ now1 = now2 ->
  getIntervalQueryStartDate now1 interval
    = getIntervalQueryStartDate now2 interval /\
  (interval = "t" -> getIntervalQueryStartDate now1 interval = JNull) /\
  (interval = "m" \/ interval = "4w" ->
   getIntervalQueryStartDate now1 interval
     = JStr (Date.toISOString (now1 - 30 * Date.msPerDay))) /\
  (interval = "w" ->
   getIntervalQueryStartDate now1 interval
     = JStr (Date.toISOString (now1 - 7 * Date.msPerDay))).
Proof.
  intros Hsame.
  destruct (getIntervalQueryStartDate_days now1) as (Hm & H4w & Hw).
  split; [destruct Hsame as [-> | ->]; reflexivity|].
  split; [intros ->; reflexivity|].
  split; [intros [-> | ->]; assumption | intros ->; assumption].
Qed.

Lemma start_date_depends_on_clock_only_witness :
  getIntervalQueryStartDate 1730571000123 "t"
    = getIntervalQueryStartDate 1730657400123 "t" /\
  getIntervalQueryStartDate 1730571000123 "t" = JNull.
Proof.
  destruct (start_date_depends_on_clock_only "t" 1730571000123 1730657400123
              (or_introl eq_refl)) as (H1 & H2 & _).
  split; [exact H1 | exact (H2 eq_refl)].
Defined.

End CommitActivityProofs.

(** ** License colours *)

Module LicenseProofs.

Import Licenses.

Section Sorting.

Context {A : Type}.
Variable cmp : A -> A -> Z.
Variable key : A -> Z.

(** The head of a sorted array: the old head unless the new element stays
    in front. *)
Lemma insertSorted_head x l :
  exists rest,
    insertSorted cmp x l =
    match l with
    | y :: _ => if Z.ltb 0 (cmp x y) then y else x
    | [] => x
    end :: rest.
Proof.
  destruct l as [|y l]; cbn; [eauto|].
  destruct (Z.ltb 0 (cmp x y)); eauto.
Qed.

(** Sorting by a compare function that is a difference of keys, second
    argument first, puts an element of greatest key in front. *)
Lemma sort_head_greatest l :
  (forall a b, a ∈ l -> b ∈ l -> cmp a b = key b - key a) ->
  l <> [] ->
  exists x rest,
    sort cmp l = x :: rest /\ x ∈ l /\ forall y, y ∈ l -> key y <= key x.
Proof.
  induction l as [|x l IH]; [congruence|]. intros Hcmp _.
  destruct l as [|x' l].
  - exists x, []. cbn. split; [reflexivity|]. split; [left|].
    intros y Hy. apply list_elem_of_singleton in Hy as ->. lia.
  - destruct IH as (m & rest & Hs & Hm & Hmax); [|discriminate|].
    { intros a b Ha Hb. apply Hcmp; right; assumption. }
    change (sort cmp (x :: x' :: l))
      with (insertSorted cmp x (sort cmp (x' :: l))).
    rewrite Hs. destruct (insertSorted_head x (m :: rest)) as (rest' & ->).
    rewrite (Hcmp x m) by (try left; right; assumption).
    destruct (Z.ltb_spec 0 (key m - key x)).
    + exists m, rest'. split; [reflexivity|]. split; [right; assumption|].
      intros y Hy. apply elem_of_cons in Hy as [-> | Hy]; [lia | auto].
    + exists x, rest'. split; [reflexivity|]. split; [left|].
      intros y Hy. apply elem_of_cons in Hy as [-> | Hy]; [lia|].
      specialize (Hmax y Hy). lia.
Qed.

End Sorting.

(** Every entry of the map has a priority that reads as a number, and that
    number is at least 1. *)
Lemma licenseToColorMap_priorities l e :
  licenseToColorMap !! l = Some e ->
  exists p, ToNumber (priority e) = Some p /\ 1 <= p.
Proof.
  set (ok := fun kv : string * ColorEntry =>
               match ToNumber (priority (snd kv)) with
               | Some p => Z.leb 1 p
               | None => false
               end).
  assert (H : forallb ok (map_to_list licenseToColorMap) = true)
    by (vm_compute; reflexivity).
  intros Hl. apply elem_of_map_to_list, list_elem_of_In in Hl.
  apply (proj1 (forallb_forall ok _) H) in Hl. unfold ok in Hl. cbn in Hl.
  destruct (ToNumber (priority e)) as [p|]; [|discriminate].
  exists p. split; [reflexivity | lia].
Qed.

Section OwnKeys.

(** Licenses none of which is a name inherited from [Object.prototype]. *)
Variable licenses : list string.
Hypothesis own_keys_only : forall l, l ∈ licenses -> l ∉ inheritedNames.

Lemma elem_of_mappedValues v :
  v ∈ mappedValues licenses <->
  exists l e, l ∈ licenses /\ licenseToColorMap !! l = Some e /\
              v = OwnEntry e.
Proof.
  unfold mappedValues. rewrite list_elem_of_filter, list_elem_of_fmap.
  split.
  - intros (Hb & l & -> & Hl). unfold readMap in *.
    destruct (licenseToColorMap !! l) as [e|] eqn:E; [eauto|].
    rewrite bool_decide_eq_false_2 in Hb by (apply own_keys_only, Hl).
    discriminate.
  - intros (l & e & Hl & Hm & ->). split; [reflexivity|].
    exists l. split; [|exact Hl]. unfold readMap. rewrite Hm. reflexivity.
Qed.

Lemma mappedValues_none :
  (forall l, l ∈ licenses -> licenseToColorMap !! l = None) ->
  mappedValues licenses = [].
Proof.
  intros H. destruct (mappedValues licenses) as [|v vs] eqn:E; [reflexivity|].
  assert (Hv : v ∈ mappedValues licenses) by (rewrite E; left).
  apply elem_of_mappedValues in Hv as (l & e & Hl & Hm & _).
  rewrite (H l Hl) in Hm. discriminate.
Qed.

(** On the array [licenseToColor] sorts, the compare function is the
    difference of the numeric priorities. *)
Lemma byPriority_on_values a b :
  a ∈ (mappedValues licenses ++ [OwnEntry fallbackEntry])%list ->
  b ∈ (mappedValues licenses ++ [OwnEntry fallbackEntry])%list ->
  byPriority a b = priorityOf b - priorityOf a.
Proof.
  assert (Hnum : forall v,
            v ∈ (mappedValues licenses ++ [OwnEntry fallbackEntry])%list ->
            exists p, ToNumber (priorityValue v) = Some p).
  { intros v Hv. apply elem_of_app in Hv as [Hv | Hv].
    - apply elem_of_mappedValues in Hv as (l & e & _ & Hm & ->).
      destruct (licenseToColorMap_priorities l e Hm) as (p & Hp & _). eauto.
    - apply list_elem_of_singleton in Hv as ->. exists 0. reflexivity. }
  intros Ha Hb. destruct (Hnum a Ha) as (pa & Hpa).
  destruct (Hnum b Hb) as (pb & Hpb).
  unfold byPriority, priorityOf. rewrite Hpa, Hpb. reflexivity.
Qed.

End OwnKeys.

(** The colour rule, for licenses that are not names inherited from
    [Object.prototype]: if no license of the input is a key of
    [licenseToColorMap] the colour is 'lightgrey'; otherwise it is the colour
    of a mapped license of the input whose priority no other mapped license
    of the input exceeds. *)
Theorem licenseToColor_by_priority (licenses : LicenseArg) :
  (forall l, l ∈ toLicenseList licenses -> l ∉ inheritedNames) ->
  ((forall l, l ∈ toLicenseList licenses -> licenseToColorMap !! l = None) ->
   licenseToColor licenses = Return (JStr "lightgrey")) /\
  ((exists l, l ∈ toLicenseList licenses /\
              is_Some (licenseToColorMap !! l)) ->
   exists l e p,
     l ∈ toLicenseList licenses /\
     licenseToColorMap !! l = Some e /\
     ToNumber (priority e) = Some p /\
     licenseToColor licenses = Return (JStr (color e)) /\
     forall l' e',
       l' ∈ toLicenseList licenses ->
       licenseToColorMap !! l' = Some e' ->
       exists p', ToNumber (priority e') = Some p' /\ p' <= p).
Proof.
  intros Hown. split.
  - intros Hnone. unfold licenseToColor.
    rewrite (mappedValues_none _ Hown Hnone). reflexivity.
  - intros (l0 & Hl0 & e0 & He0).
    set (ls := toLicenseList licenses) in *.
    destruct (sort_head_greatest byPriority priorityOf
                (mappedValues ls ++ [OwnEntry fallbackEntry])%list)
      as (x & rest & Hs & Hx & Hmax).
    { apply byPriority_on_values, Hown. }
    { destruct (mappedValues ls); discriminate. }
    assert (Hkey : forall l e, licenseToColorMap !! l = Some e ->
              ToNumber (priority e) = Some (priorityOf (OwnEntry e)) /\
              1 <= priorityOf (OwnEntry e)).
    { intros l e Hm.
      destruct (licenseToColorMap_priorities l e Hm) as (p & Hp & Hge).
      unfold priorityOf. cbn [priorityValue]. rewrite Hp.
      split; [reflexivity | exact Hge]. }
    assert (Hin : forall l e, l ∈ ls -> licenseToColorMap !! l = Some e ->
              priorityOf (OwnEntry e) <= priorityOf x).
    { intros l e Hl Hm. apply Hmax. apply elem_of_app. left.
      apply (elem_of_mappedValues ls Hown). eauto. }
    apply elem_of_app in Hx as [Hx | Hx].
    + apply (elem_of_mappedValues ls Hown) in Hx as (l & e & Hl & Hm & ->).
      exists l, e, (priorityOf (OwnEntry e)).
      split; [exact Hl|]. split; [exact Hm|].
      split; [apply (Hkey l e Hm)|].
      split; [unfold licenseToColor; fold ls; rewrite Hs; reflexivity|].
      intros l' e' Hl' Hm'. exists (priorityOf (OwnEntry e')).
      split; [apply (Hkey l' e' Hm') | apply (Hin l' e' Hl' Hm')].
    + apply list_elem_of_singleton in Hx as ->.
      pose proof (Hin l0 e0 Hl0 He0) as Hle.
      pose proof (proj2 (Hkey l0 e0 He0)) as Hge.
      change (priorityOf (OwnEntry fallbackEntry)) with 0 in Hle. lia.
Qed.

Lemma licenseToColor_by_priority_witness :
  exists l e p,
    l ∈ ["GPL"; "MIT"; "unheard-of"] /\
    licenseToColorMap !! l = Some e /\
    ToNumber (priority e) = Some p /\
    licenseToColor (LicenseList ["GPL"; "MIT"; "unheard-of"])
      = Return (JStr (color e)) /\
    forall l' e',
      l' ∈ ["GPL"; "MIT"; "unheard-of"] ->
      licenseToColorMap !! l' = Some e' ->
      exists p', ToNumber (priority e') = Some p' /\ p' <= p.
Proof.
  refine (proj2 (licenseToColor_by_priority
                   (LicenseList ["GPL"; "MIT"; "unheard-of"]) _) _).
  - apply Forall_forall.
    refine (bool_decide_unpack
              (Forall (fun l => l ∉ inheritedNames)
                 (toLicenseList (LicenseList ["GPL"; "MIT"; "unheard-of"])))
              _).
    vm_compute. exact I.
  - exists "MIT". split; [right; left | vm_compute; eauto].
Defined.

(** C9, on the code.  The name [constructor] is no key of
    [licenseToColorMap], yet its colour is [undefined], not 'lightgrey': the
    map hands out the constructor every object inherits. *)
Theorem inherited_name_has_no_colour :
  licenseToColorMap !! "constructor" = None /\
  readMap "constructor" = InheritedValue "constructor" /\
  licenseToColor (License "constructor") = Return JUndefined /\
  licenseToColor (LicenseList ["constructor"]) = Return JUndefined.
Proof. repeat split; vm_compute; reflexivity. Qed.

End LicenseProofs.

(** ** The license table and the badge built on it *)

Module LicenseTableProofs.

Import Licenses LicenseBadge.

(** Assigning one entry to a list of names. *)
Lemma lookup_insert_all (e : ColorEntry) (names : list string)
  (m : gmap string ColorEntry) (l : string) :
  foldl (fun acc license => <[license := e]> acc) m names !! l
  = if decide (l ∈ names) then Some e else m !! l.
Proof.
  revert m. induction names as [|k names IH]; intros m; cbn [foldl].
  - rewrite decide_False by (apply not_elem_of_nil). reflexivity.
  - rewrite IH. destruct (decide (l ∈ names)) as [Hin | Hnin].
    + rewrite decide_True by (right; exact Hin). reflexivity.
    + destruct (decide (l = k)) as [-> | Hne].
      * rewrite decide_True by left. apply lookup_insert_eq.
      * rewrite decide_False
          by (intros H; apply elem_of_cons in H as [? | ?]; auto).
        apply lookup_insert_ne. auto.
Qed.

Lemma lookup_addLicenseType m entry l :
  addLicenseType m entry !! l
  = if decide (l ∈ namesOf (snd entry)) then Some (entryOf (snd entry))
    else m !! l.
Proof.
  unfold addLicenseType, namesOf. cbv zeta. rewrite !lookup_insert_all.
  fold (entryOf (snd entry)).
  destruct (decide (l ∈ aliases (snd entry))) as [Ha | Ha].
  - rewrite decide_True by (apply elem_of_app; auto). reflexivity.
  - destruct (decide (l ∈ spdxLicenseIds (snd entry))) as [Hi | Hi].
    + rewrite decide_True by (apply elem_of_app; auto). reflexivity.
    + rewrite decide_False
        by (intros H; apply elem_of_app in H as [? | ?]; auto).
      reflexivity.
Qed.

(** X3.  The construction loop, for any table of license types: a name gets
    the colour and the priority of the last type that lists it, and a name no
    type lists stays as it was. *)
Theorem construction_last_type_wins (types : list (string * LicenseType))
  (m : gmap string ColorEntry) (l : string) :
  foldl addLicenseType m types !! l
  = match last (filter (fun t => l ∈ namesOf t) (map snd types)) with
    | Some t => Some (entryOf t)
    | None => m !! l
    end.
Proof.
  induction types as [|entry types IH] using rev_ind.
  - reflexivity.
  - rewrite foldl_app. cbn [foldl]. rewrite lookup_addLicenseType.
    rewrite map_app, filter_app. cbn [map].
    rewrite filter_cons, filter_nil.
    destruct (decide (l ∈ namesOf (snd entry))) as [Hin | Hnin].
    + rewrite last_snoc. reflexivity.
    + rewrite app_nil_r. exact IH.
Qed.

(** No name is listed by two types. *)
Lemma names_disjoint :
  Forall (fun l => (l ∉ namesOf copyleft) /\ (l ∉ namesOf public_domain))
    (namesOf permissive) /\
  Forall (fun l => l ∉ namesOf public_domain) (namesOf copyleft).
Proof.
  split.
  - refine (bool_decide_unpack
              (Forall (fun l => (l ∉ namesOf copyleft) /\
                                (l ∉ namesOf public_domain))
                 (namesOf permissive)) _).
    vm_compute. exact I.
  - refine (bool_decide_unpack
              (Forall (fun l => l ∉ namesOf public_domain)
                 (namesOf copyleft)) _).
    vm_compute. exact I.
Qed.

Lemma licenseToColorMap_lookup l :
  licenseToColorMap !! l
  = if decide (l ∈ namesOf public_domain) then Some (entryOf public_domain)
    else if decide (l ∈ namesOf copyleft) then Some (entryOf copyleft)
    else if decide (l ∈ namesOf permissive) then Some (entryOf permissive)
    else None.
Proof.
  unfold licenseToColorMap, licenseTypes. cbn [foldl].
  rewrite !lookup_addLicenseType. cbn [snd]. rewrite lookup_empty.
  reflexivity.
Qed.

(** The entries of the table, type by type. *)
Lemma licenseToColorMap_cases l e :
  licenseToColorMap !! l = Some e <->
  (l ∈ namesOf permissive /\ e = entryOf permissive) \/
  (l ∈ namesOf copyleft /\ e = entryOf copyleft) \/
  (l ∈ namesOf public_domain /\ e = entryOf public_domain).
Proof.
  destruct names_disjoint as [Hp Hc].
  rewrite Forall_forall in Hp. rewrite Forall_forall in Hc.
  rewrite licenseToColorMap_lookup.
  destruct (decide (l ∈ namesOf public_domain)) as [Hpd | Hpd];
    [|destruct (decide (l ∈ namesOf copyleft)) as [Hcl | Hcl];
      [|destruct (decide (l ∈ namesOf permissive)) as [Hpm | Hpm]]].
  - split.
    + intros [= <-]. auto.
    + intros [[H _] | [[H _] | [_ ->]]]; [| |reflexivity].
      * destruct (Hp l H) as [_ Hn]. contradiction.
      * specialize (Hc l H). contradiction.
  - split.
    + intros [= <-]. auto.
    + intros [[H _] | [[_ ->] | [H _]]]; [|reflexivity|contradiction].
      destruct (Hp l H) as [Hn _]. contradiction.
  - split.
    + intros [= <-]. auto.
    + intros [[_ ->] | [[H _] | [H _]]];
        [reflexivity | contradiction | contradiction].
  - split; [discriminate|].
    intros [[H _] | [[H _] | [H _]]]; contradiction.
Qed.

(** X4.  The table as built: a name is a key exactly when one of the three
    types lists it, as an identifier or as an alias, and its entry then has
    the colour and the priority of that type. *)
Theorem licenseToColorMap_entries (l : string) (e : ColorEntry) :
  licenseToColorMap !! l = Some e <->
  exists name t, (name, t) ∈ licenseTypes /\ l ∈ namesOf t /\ e = entryOf t.
Proof.
  rewrite licenseToColorMap_cases. unfold licenseTypes. split.
  - intros [[H ->] | [[H ->] | [H ->]]].
    + exists "permissive", permissive. split; [left | auto].
    + exists "copyleft", copyleft. split; [right; left | auto].
    + exists "public-domain", public_domain.
      split; [right; right; left | auto].
  - intros (name & t & Hin & Hl & ->).
    repeat (apply elem_of_cons in Hin as [[= -> ->] | Hin]; [tauto|]).
    inversion Hin.
Qed.

(** Sorting rearranges. *)
Lemma insertSorted_Permutation {A : Type} (cmp : A -> A -> Z) x l :
  insertSorted cmp x l ≡ₚ x :: l.
Proof.
  induction l as [|y l IH]; cbn; [reflexivity|].
  destruct (Z.ltb 0 (cmp x y)); [|reflexivity].
  rewrite IH. apply Permutation_swap.
Qed.

Lemma sort_Permutation {A : Type} (cmp : A -> A -> Z) l :
  sort cmp l ≡ₚ l.
Proof.
  induction l as [|x l IH]; cbn; [reflexivity|].
  rewrite insertSorted_Permutation, IH. reflexivity.
Qed.

(** What an element of the sorted array can be. *)
Lemma elem_of_sorted_values v licenses :
  v ∈ sort byPriority (mappedValues licenses ++ [OwnEntry fallbackEntry])%list ->
  v = OwnEntry fallbackEntry \/
  (exists l e, l ∈ licenses /\ licenseToColorMap !! l = Some e /\
               v = OwnEntry e) \/
  (exists l, l ∈ licenses /\ l ∈ inheritedNames /\ v = InheritedValue l).
Proof.
  rewrite sort_Permutation, elem_of_app, list_elem_of_singleton.
  intros [Hv | ->]; [|auto]. right.
  unfold mappedValues in Hv.
  apply list_elem_of_filter in Hv as [Hb Hv].
  apply list_elem_of_fmap in Hv as (l & -> & Hl).
  unfold readMap in *.
  destruct (licenseToColorMap !! l) as [e|] eqn:E; [left; eauto|].
  destruct (bool_decide (l ∈ inheritedNames)) eqn:Hi; [|discriminate].
  right. exists l. apply bool_decide_eq_true_1 in Hi. auto.
Qed.

Lemma licenseToColor_never_throws_aux (licenses : LicenseArg) :
  exists v, licenseToColor licenses = Return v.
Proof.
  unfold licenseToColor.
  destruct (sort byPriority
              (mappedValues (toLicenseList licenses)
               ++ [OwnEntry fallbackEntry])%list) as [|x rest] eqn:Hs;
    [|eauto].
  pose proof (sort_Permutation byPriority
                (mappedValues (toLicenseList licenses)
                 ++ [OwnEntry fallbackEntry])%list) as Hp.
  rewrite Hs in Hp. apply Permutation_nil_l in Hp.
  destruct (mappedValues (toLicenseList licenses)); discriminate Hp.
Qed.

(** X5.  [licenseToColor] never throws, whatever it is given: it returns one
    of the three colours of the table or 'lightgrey', or else [undefined], and
    [undefined] only when one of the licenses is a name inherited from
    [Object.prototype]. *)
Theorem licenseToColor_never_throws (licenses : LicenseArg) :
  exists v,
    licenseToColor licenses = Return v /\
    (v ∈ knownColours \/
     v = JUndefined /\
     exists l, l ∈ toLicenseList licenses /\ l ∈ inheritedNames).
Proof.
  unfold licenseToColor.
  set (ls := toLicenseList licenses).
  pose proof (elem_of_sorted_values) as Hel.
  destruct (sort byPriority (mappedValues ls ++ [OwnEntry fallbackEntry])%list)
    as [|x rest] eqn:Hs.
  - pose proof (sort_Permutation byPriority
                  (mappedValues ls ++ [OwnEntry fallbackEntry])%list) as Hp.
    rewrite Hs in Hp. apply Permutation_nil_l in Hp.
    destruct (mappedValues ls); discriminate Hp.
  - exists (colorValue x). split; [reflexivity|].
    destruct (Hel x ls ltac:(rewrite Hs; left))
      as [-> | [(l & e & Hl & Hm & ->) | (l & Hl & Hi & ->)]].
    + left. right. right. right. left.
    + left. apply licenseToColorMap_cases in Hm. cbn [colorValue].
      destruct Hm as [[_ ->] | [[_ ->] | [_ ->]]]; cbn.
      * left.
      * right. left.
      * right. right. left.
    + right. split; [reflexivity | eauto].
Qed.

(** The numeric priorities of the three types. *)
Lemma priorityOf_types :
  priorityOf (OwnEntry (entryOf permissive)) = 2 /\
  priorityOf (OwnEntry (entryOf copyleft)) = 1 /\
  priorityOf (OwnEntry (entryOf public_domain)) = 3 /\
  priorityOf (OwnEntry fallbackEntry) = 0.
Proof. repeat split; reflexivity. Qed.

Section OwnKeys.

Variable licenses : list string.
Hypothesis own_keys_only : forall l, l ∈ licenses -> l ∉ inheritedNames.

(** For licenses that are keys of the table or unknown: the fallback when
    none is a key, otherwise the colour of a key of greatest priority. *)
Lemma licenseToColor_greatest :
  ((forall l, l ∈ licenses -> licenseToColorMap !! l = None) /\
   licenseToColor (LicenseList licenses) = Return (JStr "lightgrey")) \/
  (exists l e,
     l ∈ licenses /\ licenseToColorMap !! l = Some e /\
     licenseToColor (LicenseList licenses) = Return (JStr (Licenses.color e)) /\
     forall l' e', l' ∈ licenses -> licenseToColorMap !! l' = Some e' ->
       priorityOf (OwnEntry e') <= priorityOf (OwnEntry e)).
Proof.
  destruct (LicenseProofs.sort_head_greatest byPriority priorityOf
              (mappedValues licenses ++ [OwnEntry fallbackEntry])%list)
    as (x & rest & Hs & Hx & Hmax).
  { apply LicenseProofs.byPriority_on_values, own_keys_only. }
  { destruct (mappedValues licenses); discriminate. }
  assert (Hres : licenseToColor (LicenseList licenses)
                 = Return (colorValue x)).
  { unfold licenseToColor. cbn [toLicenseList]. rewrite Hs. reflexivity. }
  assert (Hin : forall l e, l ∈ licenses -> licenseToColorMap !! l = Some e ->
            priorityOf (OwnEntry e) <= priorityOf x).
  { intros l e Hl Hm. apply Hmax, elem_of_app. left.
    apply (LicenseProofs.elem_of_mappedValues licenses own_keys_only).
    eauto. }
  apply elem_of_app in Hx as [Hx | Hx].
  - right.
    apply (LicenseProofs.elem_of_mappedValues licenses own_keys_only) in Hx
      as (l & e & Hl & Hm & ->).
    exists l, e. repeat split; auto.
  - apply list_elem_of_singleton in Hx as ->. left. split; [|exact Hres].
    intros l Hl. destruct (licenseToColorMap !! l) as [e|] eqn:E; [|reflexivity].
    pose proof (Hin l e Hl E) as Hle.
    destruct (LicenseProofs.licenseToColorMap_priorities l e E)
      as (p & Hp & Hge).
    unfold priorityOf in Hle. cbn [priorityValue fallbackEntry Licenses.priority] in Hle.
    rewrite Hp in Hle. cbn in Hle. lia.
Qed.

(** X6.  Public domain before permissive before copyleft: the colour is that
    of the public-domain licenses as soon as one of the licenses is one, else
    that of the permissive ones if one is permissive, else that of the
    copyleft ones if one is copyleft, and 'lightgrey' when none is known. *)
Theorem licenseToColor_ladder :
  (hasType public_domain licenses ->
   licenseToColor (LicenseList licenses) = Return (JStr "7cd958")) /\
  (~ hasType public_domain licenses -> hasType permissive licenses ->
   licenseToColor (LicenseList licenses) = Return (JStr "green")) /\
  (~ hasType public_domain licenses -> ~ hasType permissive licenses ->
   hasType copyleft licenses ->
   licenseToColor (LicenseList licenses) = Return (JStr "orange")) /\
  (~ hasType public_domain licenses -> ~ hasType permissive licenses ->
   ~ hasType copyleft licenses ->
   licenseToColor (LicenseList licenses) = Return (JStr "lightgrey")).
Proof.
  destruct priorityOf_types as (P2 & P1 & P3 & _).
  assert (Hkey : forall t l, l ∈ licenses -> l ∈ namesOf t ->
            (t = permissive \/ t = copyleft \/ t = public_domain) ->
            licenseToColorMap !! l = Some (entryOf t)).
  { intros t l _ Hn Ht. apply licenseToColorMap_cases.
    destruct Ht as [-> | [-> | ->]]; auto. }
  destruct licenseToColor_greatest
    as [[Hnone Hres] | (l & e & Hl & Hm & Hres & Hmax)];
    rewrite Hres.
  - assert (Hno : forall t,
              (t = permissive \/ t = copyleft \/ t = public_domain) ->
              ~ hasType t licenses).
    { intros t Ht (l & Hl & Hn).
      specialize (Hnone l Hl). rewrite (Hkey t l Hl Hn Ht) in Hnone.
      discriminate. }
    repeat split; intros; try reflexivity.
    all: exfalso; eapply Hno; [|eassumption]; auto.
  - apply licenseToColorMap_cases in Hm as Hcase.
    assert (Hge : forall t,
              (t = permissive \/ t = copyleft \/ t = public_domain) ->
              hasType t licenses ->
              priorityOf (OwnEntry (entryOf t)) <= priorityOf (OwnEntry e)).
    { intros t Ht (l' & Hl' & Hn'). apply (Hmax l'); auto. }
    assert (Hhas : forall t, l ∈ namesOf t -> hasType t licenses)
      by (intros t Hn; exists l; auto).
    repeat split.
    + intros Hpd. pose proof (Hge public_domain ltac:(auto) Hpd) as H.
      destruct Hcase as [[_ ->] | [[_ ->] | [_ ->]]];
        rewrite ?P1, ?P2, ?P3 in H; try lia. reflexivity.
    + intros Hnpd Hpm. pose proof (Hge permissive ltac:(auto) Hpm) as H.
      destruct Hcase as [[_ ->] | [[_ ->] | [Hn ->]]];
        rewrite ?P1, ?P2, ?P3 in H; try lia; [reflexivity|].
      exfalso. auto.
    + intros Hnpd Hnpm Hcl.
      destruct Hcase as [[Hn ->] | [[_ ->] | [Hn ->]]];
        [exfalso; auto | reflexivity | exfalso; auto].
    + intros Hnpd Hnpm Hncl. exfalso.
      destruct Hcase as [[Hn _] | [[Hn _] | [Hn _]]]; auto.
Qed.

End OwnKeys.

Lemma licenseToColor_ladder_witness :
  licenseToColor (LicenseList ["GPL-3.0-only"; "MIT"; "unheard-of"])
  = Return (JStr "green").
Proof.
  refine (proj1 (proj2 (licenseToColor_ladder
                          ["GPL-3.0-only"; "MIT"; "unheard-of"] _)) _ _).
  - apply Forall_forall.
    refine (bool_decide_unpack
              (Forall (fun l => l ∉ inheritedNames)
                 ["GPL-3.0-only"; "MIT"; "unheard-of"]) _).
    vm_compute. exact I.
  - intros (l & Hl & Hn).
    assert (F : Forall (fun l => l ∉ namesOf public_domain)
                  ["GPL-3.0-only"; "MIT"; "unheard-of"]).
    { refine (bool_decide_unpack
                (Forall (fun l => l ∉ namesOf public_domain)
                   ["GPL-3.0-only"; "MIT"; "unheard-of"]) _).
      vm_compute. exact I. }
    rewrite Forall_forall in F. exact (F l Hl Hn).
  - exists "MIT". split; [right; left|].
    refine (bool_decide_unpack ("MIT" ∈ namesOf permissive) _).
    vm_compute. exact I.
Defined.

(** X7.  The colour of an array of licenses depends on which licenses it
    holds, not on their order nor on repetitions (for licenses that are keys
    of the table or unknown). *)
Theorem licenseToColor_order_independent (licenses licenses' : list string) :
  (forall l, l ∈ licenses -> l ∉ inheritedNames) ->
  (forall l, l ∈ licenses <-> l ∈ licenses') ->
  licenseToColor (LicenseList licenses)
  = licenseToColor (LicenseList licenses').
Proof.
  intros Hown Hsame.
  assert (Hown' : forall l, l ∈ licenses' -> l ∉ inheritedNames)
    by (intros l Hl; apply Hown, Hsame, Hl).
  destruct priorityOf_types as (P2 & P1 & P3 & _).
  destruct (licenseToColor_greatest licenses Hown)
    as [[Hnone Hres] | (l & e & Hl & Hm & Hres & Hmax)];
    destruct (licenseToColor_greatest licenses' Hown')
      as [[Hnone' Hres'] | (l' & e' & Hl' & Hm' & Hres' & Hmax')];
    rewrite Hres, Hres'.
  - reflexivity.
  - rewrite (Hnone l') in Hm' by (apply Hsame, Hl'). discriminate.
  - rewrite (Hnone' l) in Hm by (apply Hsame, Hl). discriminate.
  - pose proof (Hmax l' e' (proj2 (Hsame l') Hl') Hm') as H1.
    pose proof (Hmax' l e (proj1 (Hsame l) Hl) Hm) as H2.
    apply licenseToColorMap_cases in Hm, Hm'.
    destruct Hm as [[_ ->] | [[_ ->] | [_ ->]]];
      destruct Hm' as [[_ ->] | [[_ ->] | [_ ->]]];
      rewrite ?P1, ?P2, ?P3 in H1, H2; try lia; reflexivity.
Qed.

Lemma licenseToColor_order_independent_witness :
  licenseToColor (LicenseList ["GPL"; "MIT"; "GPL"])
  = licenseToColor (LicenseList ["MIT"; "GPL"]).
Proof.
  apply licenseToColor_order_independent.
  - apply Forall_forall.
    refine (bool_decide_unpack
              (Forall (fun l => l ∉ inheritedNames) ["GPL"; "MIT"; "GPL"]) _).
    vm_compute. exact I.
  - intros l. rewrite !elem_of_cons, !elem_of_nil. tauto.
Defined.

Section Render.

Variable toArray : JSValue -> list string.

Local Abbreviation effective := (effectiveLicenses toArray).

(** X8.  [renderLicenseBadge] never throws.  Without licenses the badge is
    'missing' in red whatever colour was passed; with licenses the message is
    their list, separated by a comma and a space, and the colour is the one
    passed when that is truthy and the one [licenseToColor] finds otherwise. *)
Theorem renderLicenseBadge_cases (license : JSValue)
  (licenses : option (list string)) (colour : JSValue) :
  exists badge,
    renderLicenseBadge toArray license licenses colour = Return badge /\
    (effective license licenses = [] ->
     badge = {| message := "missing"; color := JStr "red" |}) /\
    (effective license licenses <> [] ->
     message badge = join ", " (effective license licenses) /\
     (truthy colour = true -> color badge = colour) /\
     (truthy colour = false ->
      licenseToColor (LicenseList (effective license licenses))
      = Return (color badge))).
Proof.
  unfold renderLicenseBadge. cbv zeta.
  destruct (effective license licenses) as [|l ls] eqn:E.
  - eexists. split; [reflexivity|]. split; [reflexivity | congruence].
  - cbn [length Nat.eqb].
    destruct (truthy colour) eqn:Ht.
    + eexists. split; [reflexivity|]. split; [discriminate|].
      intros _. split; [reflexivity|]. split; [reflexivity | discriminate].
    + destruct (licenseToColor_never_throws_aux (LicenseList (l :: ls)))
        as (v & Hv).
      rewrite Hv. eexists. split; [reflexivity|]. split; [discriminate|].
      intros _. split; [reflexivity|]. split; [discriminate | reflexivity].
Qed.

End Render.

End LicenseTableProofs.

(** ** The handler end to end *)

Module HandlerProofs.

Import GitHubCommitActivity.

(** An ISO timestamp is never the empty string. *)
Lemma toISOString_truthy t : truthy (JStr (Date.toISOString t)) = true.
Proof.
  unfold Date.toISOString. cbn [truthy].
  destruct (Date.isoYear (Date.YearFromTime t)); reflexivity.
Qed.

Lemma getIntervalQueryStartDate_cases now interval :
  (interval = "t" /\ getIntervalQueryStartDate now interval = JNull) \/
  (interval <> "t" /\
   exists t, getIntervalQueryStartDate now interval
             = JStr (Date.toISOString t)).
Proof.
  unfold getIntervalQueryStartDate.
  destruct (String.eqb_spec interval "t") as [-> | Hne]; [auto|].
  right. split; [exact Hne|].
  destruct (String.eqb interval "y"); [eauto|].
  destruct (String.eqb interval "m" || String.eqb interval "4w"); eauto.
Qed.

(** The intervals the route admits are the keys of the object literal of
    [render]. *)
Lemma intervalLabels_own interval :
  In interval ["t"; "y"; "m"; "4w"; "w"] ->
  exists suffix, intervalLabels !! interval = Some suffix.
Proof.
  cbn. intros [<- | [<- | [<- | [<- | [<- | []]]]]]; eexists; reflexivity.
Qed.

Section Handler.

Variable metric : JSValue -> string.
Variable nonNegativeInteger : Joi.Schema.
Variable transformErrors : JSValue.
Variable errorMessagesFor : string -> JSValue.
Variable parseLinkHeader : JSValue -> Completion JSValue.
Variable nativeFunctionText : string -> string.

Local Abbreviation handle :=
  (handle metric nonNegativeInteger transformErrors errorMessagesFor
     parseLinkHeader nativeFunctionText).
Local Abbreviation render := (render metric nativeFunctionText).
Local Abbreviation fetchAuthorFilterRequest :=
  (fetchAuthorFilterRequest errorMessagesFor).
Local Abbreviation fetchRequest :=
  (fetchRequest nonNegativeInteger transformErrors).

(** X9.  The two requests ask for the same window: the [since] of the REST
    request is left out ([undefined]) exactly for the interval t, for which
    the GraphQL request passes [null]; for every other interval both pass the
    same ISO timestamp. *)
Theorem since_of_both_requests (now : Z) (interval user repo : string)
  (branch authorFilter : option string) :
  (since (searchParams
            (fetchAuthorFilterRequest now interval user repo branch
               authorFilter)) = JUndefined <-> interval = "t") /\
  (var_since (variables (fetchRequest now interval user repo branch)) = JNull
   <-> interval = "t") /\
  (interval <> "t" ->
   since (searchParams
            (fetchAuthorFilterRequest now interval user repo branch
               authorFilter))
   = var_since (variables (fetchRequest now interval user repo branch)) /\
   exists t,
     var_since (variables (fetchRequest now interval user repo branch))
     = JStr (Date.toISOString t)).
Proof.
  cbn [since searchParams GitHubCommitActivity.fetchAuthorFilterRequest
       var_since variables GitHubCommitActivity.fetchRequest].
  destruct (getIntervalQueryStartDate_cases now interval)
    as [[-> H] | (Hne & t & H)]; rewrite H.
  - cbn [orElse truthy]. split; [tauto|]. split; [tauto|].
    intros Hne. contradiction.
  - unfold orElse. rewrite toISOString_truthy.
    split; [split; [discriminate | contradiction]|].
    split; [split; [discriminate | contradiction]|].
    intros _. split; [reflexivity | eauto].
Qed.

(** X10.  With an author filter: a failure of the request or of the count is
    the failure of the handler, and a count is rendered into the badge, whose
    label names the author and whose message ends in the label of the
    interval, for each of the intervals t, y, m, 4w and w that the route
    admits. *)
Theorem handle_with_author_filter (w : World) (interval user repo : string)
  (branch : option string) (author : string) :
  author <> "" ->
  let request :=
    fetchAuthorFilterRequest (clock w) interval user repo branch (Some author)
  in
  let run := handle w interval user repo branch (Some author) in
  (forall e, _request w request = Throw e -> resultOf run = Throw e) /\
  (forall r e,
     _request w request = Return r ->
     transformAuthorFilter parseLinkHeader r = Throw e ->
     resultOf run = Throw e) /\
  (forall r count,
     _request w request = Return r ->
     transformAuthorFilter parseLinkHeader r = Return count ->
     In interval ["t"; "y"; "m"; "4w"; "w"] ->
     exists suffix,
       intervalLabels !! interval = Some suffix /\
       resultOf run
       = Return {| label := (if String.eqb interval "t" then "commits"
                             else "commit activity") ++ " by " ++ author;
                   message := metric count ++ suffix |}).
Proof.
  intros Hne request run.
  assert (Ht : truthy (ofOption (Some author)) = true).
  { cbn. destruct (String.eqb_spec author ""); [contradiction | reflexivity]. }
  assert (Hrun : resultOf run
                 = let* r := _request w request in
                   let* count := transformAuthorFilter parseLinkHeader r in
                   render defaultBadgeData interval count (Some author)).
  { unfold run, resultOf, GitHubCommitActivity.handle. rewrite Ht.
    unfold svc_bind, GitHubCommitActivity.fetchAuthorFilter, issueRest,
      svc_lift, svc_ret. cbn [app]. fold request.
    destruct (_request w request) as [r|e]; [|reflexivity]. cbn [bind].
    destruct (transformAuthorFilter parseLinkHeader r); reflexivity. }
  rewrite Hrun. repeat split.
  - intros e ->. reflexivity.
  - intros r e -> He. cbn [bind]. rewrite He. reflexivity.
  - intros r count -> Hc Hin. cbn [bind]. rewrite Hc. cbn [bind].
    destruct (intervalLabels_own interval Hin) as [suffix Hs].
    exists suffix. split; [exact Hs|].
    rewrite CommitActivityProofs.render_once_defined.
    rewrite (CommitActivityProofs.intervalLabelText_own _ _ _ Hs).
    unfold authorFilterLabel. rewrite Ht. reflexivity.
Qed.

(** X11.  Without an author filter (none, or the empty string): a failure of
    the query is the failure of the handler; a payload the schema lets through
    is rendered into a badge when the branch resolves, under a label without
    author and, for each of the intervals t, y, m, 4w and w that the route
    admits, with a message that ends in the label of the interval; it is an
    InvalidResponse 'invalid branch' when the branch does not resolve.  On
    such a payload the handler never ends in a TypeError. *)
Theorem handle_without_author_filter (w : World)
  (interval user repo : string) (branch authorFilter : option string) :
  truthy (ofOption authorFilter) = false ->
  let request := fetchRequest (clock w) interval user repo branch in
  let run := handle w interval user repo branch authorFilter in
  (forall e, _requestGraphql w request = Throw e -> resultOf run = Throw e) /\
  (forall json,
     _requestGraphql w request = Return json ->
     schema nonNegativeInteger json = true ->
     (repositoryObject json = JUndefined /\
      resultOf run = Throw (Failure InvalidResponse "invalid branch")) \/
     (repositoryObject json <> JUndefined /\
      exists badge,
        resultOf run = Return badge /\
        label badge = (if String.eqb interval "t" then "commits"
                       else "commit activity") /\
        (In interval ["t"; "y"; "m"; "4w"; "w"] ->
         exists suffix,
           intervalLabels !! interval = Some suffix /\
           message badge
           = metric (field (field (repositoryObject json) "history")
                       "totalCount")
             ++ suffix))).
Proof.
  intros Ht request run.
  assert (Hrun : resultOf run
                 = let* json := _requestGraphql w request in
                   let* count := transform json in
                   render defaultBadgeData interval count authorFilter).
  { unfold run, resultOf, GitHubCommitActivity.handle. rewrite Ht.
    unfold svc_bind, GitHubCommitActivity.fetch, issueGraphql, svc_lift,
      svc_ret. cbn [app]. fold request.
    destruct (_requestGraphql w request) as [json|e]; [|reflexivity].
    cbn [bind]. destruct (transform json); reflexivity. }
  rewrite Hrun. split.
  - intros e ->. reflexivity.
  - intros json -> Hs. cbn [bind].
    destruct (CommitActivityProofs.schema_shape nonNegativeInteger json Hs)
      as (pj & pd & pr & -> & Hd & Hr & Ho).
    assert (Htr : transform (JObj pj) =
                  if negb (truthy (repositoryObject (JObj pj)))
                  then Throw (Failure InvalidResponse "invalid branch")
                  else let* history :=
                         GetV (repositoryObject (JObj pj)) "history" in
                       GetV history "totalCount").
    { unfold transform, repositoryObject.
      rewrite CommitActivityProofs.GetV_object. cbn [bind].
      rewrite Hd, CommitActivityProofs.GetV_object. cbn [bind].
      rewrite Hr, CommitActivityProofs.GetV_object. cbn [bind].
      reflexivity. }
    rewrite Htr. destruct Ho as [Ho | (po & ph & Ho & Hh)]; rewrite Ho.
    + left. split; reflexivity.
    + right. split; [discriminate|]. cbn [truthy negb].
      rewrite CommitActivityProofs.GetV_object. cbn [bind]. rewrite Hh.
      rewrite CommitActivityProofs.GetV_object. cbn [bind].
      rewrite CommitActivityProofs.render_once_defined.
      eexists. split; [reflexivity|]. cbn [label message].
      unfold authorFilterLabel. rewrite Ht.
      rewrite CommitActivityProofs.append_empty. split; [reflexivity|].
      intros Hin. destruct (intervalLabels_own interval Hin) as [suffix Hsuf].
      exists suffix. split; [exact Hsuf|].
      rewrite (CommitActivityProofs.intervalLabelText_own _ _ _ Hsuf).
      reflexivity.
Qed.

End Handler.

Lemma handle_with_author_filter_witness :
  resultOf (Fixtures.authorCount Fixtures.world42)
  = Return {| label := "commit activity by jnullj"; message := "42/month" |}.
Proof.
  destruct (proj2 (proj2 (handle_with_author_filter Fixtures.metric
                            Fixtures.nonNegativeInteger
                            Fixtures.transformErrors
                            Fixtures.errorMessagesFor
                            ParseLinkHeader.parseLinkHeader
                            Fixtures.nativeFunctionText Fixtures.world42
                            "m" "badges" "shields" None "jnullj"
                            ltac:(discriminate)))
              Fixtures.oneCommitOfMany (JStr "42") eq_refl
              ltac:(vm_compute; reflexivity)
              ltac:(cbn; auto))
    as (suffix & Hs & Hres).
  vm_compute in Hs. injection Hs as <-. exact Hres.
Defined.

Lemma handle_without_author_filter_witness :
  resultOf (Fixtures.handle0 Fixtures.world42 "m" "badges" "shields" None
              None)
  = Return {| label := "commit activity"; message := "457/month" |}.
Proof.
  destruct (proj2 (handle_without_author_filter Fixtures.metric
                     Fixtures.nonNegativeInteger Fixtures.transformErrors
                     Fixtures.errorMessagesFor
                     ParseLinkHeader.parseLinkHeader
                     Fixtures.nativeFunctionText Fixtures.world42
                     "m" "badges" "shields" None None eq_refl)
              Fixtures.payloadWithHistory eq_refl)
    as [[Hno _] | (_ & badge & Hres & Hlabel & Hmessage)].
  - vm_compute. reflexivity.
  - vm_compute in Hno. discriminate Hno.
  - destruct (Hmessage ltac:(cbn; auto)) as (suffix & Hs & Hm).
    vm_compute in Hs. injection Hs as <-.
    refine (eq_trans Hres _). destruct badge as [l m].
    cbn [label message] in Hlabel, Hm. rewrite Hlabel, Hm. reflexivity.
Defined.

End HandlerProofs.

(** ** The yearly window *)

Module YearProofs.

Import GitHubCommitActivity.

Lemma DaysInYear_cases y : Date.DaysInYear y = 365 \/ Date.DaysInYear y = 366.
Proof.
  unfold Date.DaysInYear.
  repeat match goal with
         | |- context [if ?b then _ else _] => destruct b
         end; auto.
Qed.

(** No two leap years in a row. *)
Lemma leap_years_apart y :
  Date.DaysInYear (y - 1) = 366 -> Date.DaysInYear y = 365.
Proof.
  unfold Date.DaysInYear.
  destruct (Z.eqb_spec ((y - 1) mod 4) 0), (Z.eqb_spec ((y - 1) mod 100) 0),
    (Z.eqb_spec ((y - 1) mod 400) 0), (Z.eqb_spec (y mod 4) 0),
    (Z.eqb_spec (y mod 100) 0), (Z.eqb_spec (y mod 400) 0);
    cbn [negb]; intros H; try discriminate H; try reflexivity;
    exfalso; Z.div_mod_to_equations; lia.
Qed.

(** The leap day moves the months from March on. *)
Lemma daysBeforeMonth_leap m leap :
  0 <= m <= 11 ->
  Date.daysBeforeMonth m leap
  = Date.daysBeforeMonth m 0 + (if Z.leb 2 m then leap else 0).
Proof.
  intros Hm.
  assert (H : m = 0 \/ m = 1 \/ m = 2 \/ m = 3 \/ m = 4 \/ m = 5 \/ m = 6 \/
              m = 7 \/ m = 8 \/ m = 9 \/ m = 10 \/ m = 11) by lia.
  repeat (destruct H as [-> | H]; [cbn; lia|]). subst m. cbn. lia.
Qed.

(** Setting the year back by one moves the time value back by a whole year
    of 365 or 366 days. *)
Lemma setUTCFullYear_back t :
  exists k, (k = 365 \/ k = 366) /\
    Date.setUTCFullYear t (Date.getUTCFullYear t - 1)
    = t - k * Date.msPerDay.
Proof.
  pose proof (CommitActivityProofs.MonthFromTime_range t) as Hm.
  pose proof (CommitActivityProofs.DayFromYear_succ (Date.YearFromTime t - 1))
    as Hs.
  replace (Date.YearFromTime t - 1 + 1) with (Date.YearFromTime t) in Hs
    by lia.
  pose proof (leap_years_apart (Date.YearFromTime t)) as Hleap.
  pose proof (DaysInYear_cases (Date.YearFromTime t)) as Hy.
  pose proof (DaysInYear_cases (Date.YearFromTime t - 1)) as Hy'.
  unfold Date.setUTCFullYear, Date.getUTCFullYear, Date.MakeDay,
    Date.MakeDate, Date.DateFromTime, Date.DayWithinYear,
    Date.TimeWithinDay, Date.Day, Date.InLeapYear.
  rewrite (Z.div_small (Date.MonthFromTime t) 12) by lia.
  rewrite (Z.mod_small (Date.MonthFromTime t) 12) by lia.
  rewrite Z.add_0_r.
  rewrite (daysBeforeMonth_leap (Date.MonthFromTime t)
             (if Z.eqb (Date.DaysInYear (Date.YearFromTime t - 1)) 366
              then 1 else 0)) by lia.
  rewrite (daysBeforeMonth_leap (Date.MonthFromTime t)
             (if Z.eqb (Date.DaysInYear (Date.YearFromTime t)) 366
              then 1 else 0)) by lia.
  pose proof (Z.div_mod t Date.msPerDay ltac:(discriminate)) as Hdm.
  destruct (Z.leb 2 (Date.MonthFromTime t));
    destruct Hy as [Hy | Hy]; destruct Hy' as [Hy' | Hy'];
    rewrite ?Hy, ?Hy' in *; cbn [Z.eqb Pos.eqb];
    try (specialize (Hleap eq_refl); discriminate Hleap);
    (exists 365; split; [auto | lia]) || (exists 366; split; [auto | lia]).
Qed.

(** X12.  For the interval y the start date lies a whole year of 365 or 366
    days before the clock reading. *)
Theorem yearly_window_is_a_year (now : Z) :
  exists k, (k = 365 \/ k = 366) /\
    getIntervalQueryStartDate now "y"
    = JStr (Date.toISOString (now - k * Date.msPerDay)).
Proof.
  destruct (setUTCFullYear_back now) as (k & Hk & H).
  exists k. split; [exact Hk|].
  unfold getIntervalQueryStartDate. cbn [String.eqb Ascii.eqb].
  cbn -[Date.toISOString Date.setUTCFullYear Date.getUTCFullYear].
  rewrite H. reflexivity.
Qed.

Lemma DayFromYear_mono a b :
  a <= b -> Date.DayFromYear a <= Date.DayFromYear b.
Proof.
  unfold Date.DayFromYear. intros H. Z.div_mod_to_equations. lia.
Qed.

Lemma YearFromTime_days t :
  Date.DayFromYear (Date.YearFromTime t) <= Date.Day t
  < Date.DayFromYear (Date.YearFromTime t + 1).
Proof.
  pose proof (CommitActivityProofs.YearFromTime_spec t) as H.
  unfold Date.TimeFromYear, Date.Day, Date.msPerDay in *.
  Z.div_mod_to_equations. lia.
Qed.

(** The year of a time value is the only one its day falls into. *)
Lemma YearFromTime_unique t y :
  Date.DayFromYear y <= Date.Day t < Date.DayFromYear (y + 1) ->
  Date.YearFromTime t = y.
Proof.
  intros Hy. pose proof (YearFromTime_days t) as HY.
  destruct (Z.lt_trichotomy (Date.YearFromTime t) y) as [Hlt | [Heq | Hgt]];
    [|exact Heq|].
  - pose proof (DayFromYear_mono (Date.YearFromTime t + 1) y ltac:(lia)). lia.
  - pose proof (DayFromYear_mono (y + 1) (Date.YearFromTime t) ltac:(lia)).
    lia.
Qed.

Lemma months_cases m :
  0 <= m <= 11 ->
  m = 0 \/ m = 1 \/ m = 2 \/ m = 3 \/ m = 4 \/ m = 5 \/ m = 6 \/ m = 7 \/
  m = 8 \/ m = 9 \/ m = 10 \/ m = 11.
Proof. lia. Qed.

(** Decoding what [MakeDay] and [MakeDate] encode: a day the calendar has,
    at a time of day, reads back as that year, month, day and time. *)
Lemma components_of_MakeDate y m d time :
  0 <= m <= 11 ->
  1 <= d <= Calendar.daysInMonth m (Calendar.leapFlag y) ->
  0 <= time < Date.msPerDay ->
  let t := Date.MakeDate (Date.MakeDay y m d) time in
  Date.YearFromTime t = y /\ Date.MonthFromTime t = m /\
  Date.DateFromTime t = d /\ Date.TimeWithinDay t = time.
Proof.
  intros Hm Hd Htime t.
  pose proof (CommitActivityProofs.DayFromYear_succ y) as Hs.
  pose proof (DaysInYear_cases y) as Hy.
  assert (Hday : Date.Day t
                 = Date.DayFromYear y
                   + Date.daysBeforeMonth m (Calendar.leapFlag y) + d - 1).
  { unfold t, Date.MakeDate, Date.MakeDay, Date.Day, Calendar.leapFlag.
    rewrite (Z.div_small m 12), (Z.mod_small m 12), Z.add_0_r by lia.
    unfold Date.msPerDay in *. Z.div_mod_to_equations. lia. }
  assert (Htw : Date.TimeWithinDay t = time).
  { unfold t, Date.MakeDate, Date.TimeWithinDay.
    unfold Date.msPerDay in *. Z.div_mod_to_equations. lia. }
  assert (Hflag : Calendar.leapFlag y = Date.DaysInYear y - 365).
  { unfold Calendar.leapFlag. destruct Hy as [-> | ->]; reflexivity. }
  assert (Hwithin : 0 <= Date.daysBeforeMonth m (Calendar.leapFlag y) + d - 1
                    < Date.DaysInYear y).
  { rewrite Hflag in *.
    destruct (months_cases m Hm) as
      [-> | [-> | [-> | [-> | [-> | [-> | [-> | [-> | [-> | [-> | [-> | ->]]]]]]]]]]];
      cbn [Date.daysBeforeMonth Calendar.daysInMonth] in *; lia. }
  assert (HY : Date.YearFromTime t = y)
    by (apply YearFromTime_unique; lia).
  assert (HL : Date.InLeapYear t = Calendar.leapFlag y)
    by (unfold Date.InLeapYear, Calendar.leapFlag; rewrite HY; reflexivity).
  assert (HW : Date.DayWithinYear t
               = Date.daysBeforeMonth m (Calendar.leapFlag y) + d - 1)
    by (unfold Date.DayWithinYear; rewrite HY; lia).
  assert (HM : Date.MonthFromTime t = m).
  { unfold Date.MonthFromTime. rewrite HW, HL. rewrite Hflag in *.
    destruct (months_cases m Hm) as
      [-> | [-> | [-> | [-> | [-> | [-> | [-> | [-> | [-> | [-> | [-> | ->]]]]]]]]]]];
      cbn [Date.daysBeforeMonth Calendar.daysInMonth] in *;
      repeat match goal with
             | |- context [if Z.ltb ?a ?b then _ else _] =>
                 destruct (Z.ltb_spec a b); try lia
             end; reflexivity. }
  split; [exact HY|]. split; [exact HM|]. split; [|exact Htw].
  unfold Date.DateFromTime. rewrite HW, HM, HL. lia.
Qed.

(** The day of the month is one its month has. *)
Lemma DateFromTime_in_month t :
  1 <= Date.DateFromTime t
  <= Calendar.daysInMonth (Date.MonthFromTime t)
       (Calendar.leapFlag (Date.YearFromTime t)).
Proof.
  pose proof (CommitActivityProofs.DayWithinYear_range t) as Hd.
  pose proof (DaysInYear_cases (Date.YearFromTime t)) as Hy.
  assert (Hflag : Date.InLeapYear t = Date.DaysInYear (Date.YearFromTime t) - 365).
  { unfold Date.InLeapYear. destruct Hy as [-> | ->]; reflexivity. }
  change (Calendar.leapFlag (Date.YearFromTime t)) with (Date.InLeapYear t).
  unfold Date.DateFromTime, Date.MonthFromTime. rewrite Hflag.
  repeat match goal with
         | |- context [if Z.ltb ?a ?b then _ else _] =>
             destruct (Z.ltb_spec a b)
         end; cbn [Date.daysBeforeMonth Calendar.daysInMonth]; lia.
Qed.

(** X13.  For the interval y the start date is the same day of the same month
    at the same time of day one year earlier; only from 29 February, which the
    year before does not have, it is 1 March. *)
Theorem yearly_window_same_calendar_day (now : Z) :
  let start := Date.setUTCFullYear now (Date.getUTCFullYear now - 1) in
  getIntervalQueryStartDate now "y" = JStr (Date.toISOString start) /\
  Date.YearFromTime start = Date.YearFromTime now - 1 /\
  Date.TimeWithinDay start = Date.TimeWithinDay now /\
  (Date.MonthFromTime now = 1 /\ Date.DateFromTime now = 29 ->
   Date.MonthFromTime start = 2 /\ Date.DateFromTime start = 1) /\
  (~ (Date.MonthFromTime now = 1 /\ Date.DateFromTime now = 29) ->
   Date.MonthFromTime start = Date.MonthFromTime now /\
   Date.DateFromTime start = Date.DateFromTime now).
Proof.
  intros start. split; [reflexivity|].
  pose proof (CommitActivityProofs.MonthFromTime_range now) as Hm.
  pose proof (DateFromTime_in_month now) as Hd.
  pose proof (leap_years_apart (Date.YearFromTime now)) as Hleap.
  pose proof (DaysInYear_cases (Date.YearFromTime now)) as Hy.
  pose proof (DaysInYear_cases (Date.YearFromTime now - 1)) as Hy'.
  assert (Htime : 0 <= Date.TimeWithinDay now < Date.msPerDay)
    by (unfold Date.TimeWithinDay; apply Z.mod_pos_bound; reflexivity).
  assert (Hflags : 0 <= Calendar.leapFlag (Date.YearFromTime now) <= 1 /\
                   0 <= Calendar.leapFlag (Date.YearFromTime now - 1) <= 1 /\
                   (Calendar.leapFlag (Date.YearFromTime now) = 1 ->
                    Calendar.leapFlag (Date.YearFromTime now - 1) = 0)).
  { unfold Calendar.leapFlag.
    destruct Hy as [Hy | Hy]; destruct Hy' as [Hy' | Hy'];
      rewrite Hy, Hy'; cbn; repeat split; lia. }
  destruct Hflags as (Hf & Hf' & Hff).
  destruct (Z.eq_dec (Date.MonthFromTime now) 1) as [HM | HM];
    [destruct (Z.eq_dec (Date.DateFromTime now) 29) as [HD | HD]|].
  - (* 29 February *)
    rewrite HM, HD in Hd. cbn [Calendar.daysInMonth] in Hd.
    assert (Hf0 : Calendar.leapFlag (Date.YearFromTime now - 1) = 0)
      by (apply Hff; lia).
    assert (Hstart : start
                     = Date.MakeDate
                         (Date.MakeDay (Date.YearFromTime now - 1) 2 1)
                         (Date.TimeWithinDay now)).
    { unfold start, Date.setUTCFullYear, Date.getUTCFullYear. rewrite HM, HD.
      unfold Date.MakeDay. fold (Calendar.leapFlag (Date.YearFromTime now - 1 + 1 / 12)).
      fold (Calendar.leapFlag (Date.YearFromTime now - 1 + 2 / 12)).
      change (1 / 12) with 0. change (2 / 12) with 0.
      change (1 mod 12) with 1. change (2 mod 12) with 2.
      rewrite Z.add_0_r, Hf0. cbn [Date.daysBeforeMonth]. f_equal. lia. }
    destruct (components_of_MakeDate (Date.YearFromTime now - 1) 2 1
                (Date.TimeWithinDay now)) as (H1 & H2 & H3 & H4);
      [lia | cbn; lia | exact Htime |].
    rewrite Hstart. split; [exact H1|]. split; [exact H4|].
    split; [auto | intros H; exfalso; auto].
  - (* February, another day *)
    rewrite HM in Hd. cbn [Calendar.daysInMonth] in Hd.
    destruct (components_of_MakeDate (Date.YearFromTime now - 1)
                (Date.MonthFromTime now) (Date.DateFromTime now)
                (Date.TimeWithinDay now)) as (H1 & H2 & H3 & H4);
      [lia | rewrite HM; cbn [Calendar.daysInMonth]; lia | exact Htime |].
    split; [exact H1|]. split; [exact H4|].
    split; [intros [_ H]; contradiction | auto].
  - (* any other month *)
    destruct (components_of_MakeDate (Date.YearFromTime now - 1)
                (Date.MonthFromTime now) (Date.DateFromTime now)
                (Date.TimeWithinDay now)) as (H1 & H2 & H3 & H4);
      [lia | | exact Htime |].
    { destruct (months_cases _ Hm) as
        [E | [E | [E | [E | [E | [E | [E | [E | [E | [E | [E | E]]]]]]]]]]];
        rewrite E in *; cbn [Calendar.daysInMonth] in *; lia. }
    split; [exact H1|]. split; [exact H4|].
    split; [intros [H _]; contradiction | auto].
Qed.

End YearProofs.

(** ** The two transforms *)

Module TransformProofs.

Import GitHubCommitActivity.

(** X14.  The count the REST transform returns never depends on the items of
    the body: two responses with the same headers get the same outcome,
    whatever their bodies hold, unless a body carries the message 'Not Found'. *)
Theorem count_ignores_the_body
  (parseLinkHeader : JSValue -> Completion JSValue) (r r' : RestResult)
  (message message' : JSValue) :
  res r = res r' ->
  GetV (buffer r) "message" = Return message ->
  strictEqStr message "Not Found" = false ->
  GetV (buffer r') "message" = Return message' ->
  strictEqStr message' "Not Found" = false ->
  transformAuthorFilter parseLinkHeader r
  = transformAuthorFilter parseLinkHeader r'.
Proof.
  intros Hres Hm Hne Hm' Hne'.
  rewrite (CommitActivityProofs.transformAuthorFilter_unfold
             parseLinkHeader r message Hm Hne).
  rewrite (CommitActivityProofs.transformAuthorFilter_unfold
             parseLinkHeader r' message' Hm' Hne').
  unfold linkOf. rewrite Hres. reflexivity.
Qed.

Lemma count_ignores_the_body_witness :
  transformAuthorFilter ParseLinkHeader.parseLinkHeader
    Fixtures.oneCommitOfMany
  = transformAuthorFilter ParseLinkHeader.parseLinkHeader
      {| res := res Fixtures.oneCommitOfMany; buffer := JArr [] |}.
Proof.
  apply (count_ignores_the_body ParseLinkHeader.parseLinkHeader
           Fixtures.oneCommitOfMany
           {| res := res Fixtures.oneCommitOfMany; buffer := JArr [] |}
           JUndefined JUndefined); reflexivity.
Defined.

(** What validation guarantees of the count. *)
Lemma schema_count nonNegativeInteger json :
  schema nonNegativeInteger json = true ->
  repositoryObject json <> JUndefined ->
  nonNegativeInteger
    (field (field (repositoryObject json) "history") "totalCount") = true.
Proof.
  unfold schema. intros H Hobj.
  apply CommitActivityProofs.required_object_inv in H as (pj & -> & H).
  cbn [forallb fst snd] in H. rewrite andb_true_r in H.
  apply CommitActivityProofs.required_object_inv in H as (pd & Hd & H).
  cbn [forallb fst snd] in H. rewrite andb_true_r in H.
  apply CommitActivityProofs.required_object_inv in H as (pr & Hr & H).
  cbn [forallb fst snd] in H. rewrite andb_true_r in H.
  unfold repositoryObject in *. rewrite Hd in *. rewrite Hr in *.
  apply CommitActivityProofs.object_inv in H as [H | (po & Ho & H)];
    [contradiction|].
  cbn [forallb fst snd] in H. rewrite andb_true_r in H.
  apply CommitActivityProofs.required_object_inv in H as (ph & Hh & H).
  cbn [forallb fst snd] in H. rewrite andb_true_r in H. exact H.
Qed.

(** X15.  The count [transform] returns from a payload the schema lets through
    is a value the validator [nonNegativeInteger] accepted. *)
Theorem transform_returns_validated_count (nonNegativeInteger : Joi.Schema)
  (json count : JSValue) :
  schema nonNegativeInteger json = true ->
  transform json = Return count ->
  nonNegativeInteger count = true.
Proof.
  intros Hs Ht.
  destruct (CommitActivityProofs.schema_shape nonNegativeInteger json Hs)
    as (pj & pd & pr & -> & Hd & Hr & Ho).
  assert (Htr : transform (JObj pj) =
                if negb (truthy (repositoryObject (JObj pj)))
                then Throw (Failure InvalidResponse "invalid branch")
                else let* history :=
                       GetV (repositoryObject (JObj pj)) "history" in
                     GetV history "totalCount").
  { unfold transform, repositoryObject.
    rewrite CommitActivityProofs.GetV_object. cbn [bind].
    rewrite Hd, CommitActivityProofs.GetV_object. cbn [bind].
    rewrite Hr, CommitActivityProofs.GetV_object. cbn [bind].
    reflexivity. }
  rewrite Htr in Ht.
  pose proof (schema_count nonNegativeInteger (JObj pj) Hs) as Hc.
  destruct Ho as [Ho | (po & ph & Ho & Hh)]; rewrite Ho in *.
  - discriminate Ht.
  - cbn [truthy negb] in Ht.
    rewrite CommitActivityProofs.GetV_object in Ht. cbn [bind] in Ht.
    rewrite Hh in *. rewrite CommitActivityProofs.GetV_object in Ht.
    injection Ht as <-. apply Hc. discriminate.
Qed.

Lemma transform_returns_validated_count_witness :
  Fixtures.nonNegativeInteger (JNum 457) = true.
Proof.
  apply (transform_returns_validated_count Fixtures.nonNegativeInteger
           Fixtures.payloadWithHistory (JNum 457)).
  - vm_compute. reflexivity.
  - vm_compute. reflexivity.
Defined.

End TransformProofs.

(** ** Collecting the files of a pull request *)

Module PullRequestFilesProofs.

Import PullRequestFiles.

Section Client.

Variable client : FilesRequest -> Completion JSValue.
Variables owner repo : string.
Variable pullNumber : Z.

Local Abbreviation collect := (collect client).
Local Abbreviation servesPage := (servesPage client owner repo pullNumber).
Local Abbreviation request := (filesRequest owner repo pullNumber).
Local Abbreviation pageEvents := (pageEvents owner repo pullNumber).

(** One turn of the loop on a page that holds items. *)
Lemma collect_step fuel page items allFiles trace :
  items <> [] ->
  servesPage page items ->
  collect (S fuel) owner repo pullNumber page allFiles trace
  = collect fuel owner repo pullNumber (page + 1) (allFiles ++ items)%list
      (trace ++ pageEvents page [items])%list.
Proof.
  intros Hne (response & Hc & Hd). cbn [PullRequestFiles.collect].
  rewrite Hc. cbn [bind]. rewrite Hd. cbn [bind lengthOf strictEqNum].
  destruct items as [|x items]; [contradiction|].
  cbn [length]. rewrite Nat2Z.inj_succ.
  destruct (Z.eqb_spec (Z.succ (Z.of_nat (length items))) 0) as [E | _];
    [lia|].
  cbn [concatValue PullRequestFiles.pageEvents].
  rewrite <- app_assoc. reflexivity.
Qed.

(** The turns of the loop over a run of pages that hold items. *)
Lemma collect_pages pages :
  forall fuel page allFiles trace,
    (forall i items, pages !! i = Some items ->
       items <> [] /\ servesPage (page + Z.of_nat i) items) ->
    collect (length pages + fuel) owner repo pullNumber page allFiles trace
    = collect fuel owner repo pullNumber (page + Z.of_nat (length pages))
        (allFiles ++ concat pages)%list
        (trace ++ pageEvents page pages)%list.
Proof.
  induction pages as [|items pages IH]; intros fuel page allFiles trace Hp.
  - cbn. rewrite Z.add_0_r, !app_nil_r. reflexivity.
  - destruct (Hp 0%nat items eq_refl) as [Hne Hs].
    rewrite Z.add_0_r in Hs.
    cbn [length Nat.add]. rewrite (collect_step _ page items); auto.
    rewrite IH.
    + cbn [concat PullRequestFiles.pageEvents length].
      rewrite Nat2Z.inj_succ, <- !app_assoc.
      replace (page + 1 + Z.of_nat (length pages))
        with (page + Z.succ (Z.of_nat (length pages))) by lia.
      reflexivity.
    + intros i its Hi. specialize (Hp (S i) its Hi).
      rewrite Nat2Z.inj_succ in Hp.
      replace (page + 1 + Z.of_nat i) with (page + Z.succ (Z.of_nat i))
        by lia.
      exact Hp.
Qed.

(** Before the pages are through, the loop is still going. *)
Lemma collect_short pages :
  forall fuel page allFiles trace,
    (forall i items, pages !! i = Some items ->
       items <> [] /\ servesPage (page + Z.of_nat i) items) ->
    (fuel <= length pages)%nat ->
    collect fuel owner repo pullNumber page allFiles trace = None.
Proof.
  induction pages as [|items pages IH]; intros fuel page allFiles trace Hp Hf.
  - assert (fuel = 0%nat) as -> by (cbn in Hf; lia). reflexivity.
  - destruct fuel as [|fuel]; [reflexivity|].
    destruct (Hp 0%nat items eq_refl) as [Hne Hs].
    rewrite Z.add_0_r in Hs.
    rewrite (collect_step _ page items); auto.
    apply IH; [|cbn in Hf; lia].
    intros i its Hi. specialize (Hp (S i) its Hi).
    rewrite Nat2Z.inj_succ in Hp.
    replace (page + 1 + Z.of_nat i) with (page + Z.succ (Z.of_nat i)) by lia.
    exact Hp.
Qed.

(** The requests of a run of pages and of the page after it. *)
Lemma requestsIn_pageEvents pages :
  forall page,
    requestsIn (pageEvents page pages)
    = map (fun i => request (page + Z.of_nat i)) (seq 0 (length pages)).
Proof.
  induction pages as [|items pages IH]; intros page; [reflexivity|].
  cbn [PullRequestFiles.pageEvents length seq map].
  unfold requestsIn in *. cbn [omap list_omap]. rewrite IH.
  rewrite Z.add_0_r. f_equal.
  rewrite <- seq_shift, map_map. apply map_ext. intros i. f_equal. lia.
Qed.

Lemma requestsIn_run pages page :
  requestsIn (pageEvents page pages
              ++ [Requested (request (page + Z.of_nat (length pages)))])%list
  = map (fun i => request (page + Z.of_nat i)) (seq 0 (S (length pages))).
Proof.
  rewrite seq_S, map_app. cbn [map Nat.add].
  rewrite <- requestsIn_pageEvents. unfold requestsIn.
  rewrite omap_app. reflexivity.
Qed.

(** X16.  The loop ends at the first empty page: when the pages 1 to n hold
    items and page n + 1 is empty, n + 1 requests are needed and enough; the
    result is the items of the pages in order, and the requests ask for the
    pages 1 to n + 1 in order, 100 items to a page. *)
Theorem getAllFiles_until_empty_page (pages : list (list JSValue))
  (fuel : nat) :
  (forall i items, pages !! i = Some items ->
     items <> [] /\ servesPage (1 + Z.of_nat i) items) ->
  servesPage (1 + Z.of_nat (length pages)) [] ->
  ((length pages < fuel)%nat ->
   getAllFilesForPullRequest client fuel owner repo pullNumber
   = Some (Return (concat pages),
           (pageEvents 1 pages
            ++ [Requested (request (1 + Z.of_nat (length pages)))])%list)) /\
  ((fuel <= length pages)%nat ->
   getAllFilesForPullRequest client fuel owner repo pullNumber = None) /\
  requestsIn (pageEvents 1 pages
              ++ [Requested (request (1 + Z.of_nat (length pages)))])%list
  = map (fun i => request (1 + Z.of_nat i)) (seq 0 (S (length pages))) /\
  Forall (fun r => per_page r = 100)
    (requestsIn (pageEvents 1 pages
                 ++ [Requested (request (1 + Z.of_nat (length pages)))])%list).
Proof.
  intros Hp (response & Hc & Hd).
  pose proof (requestsIn_run pages 1) as Hreq.
  split; [|split; [|split]].
  - intros Hf. unfold getAllFilesForPullRequest.
    replace fuel with (length pages + S (fuel - S (length pages)))%nat by lia.
    rewrite collect_pages by exact Hp.
    cbn [PullRequestFiles.collect]. rewrite Hc. cbn [bind]. rewrite Hd.
    reflexivity.
  - intros Hf. unfold getAllFilesForPullRequest.
    apply (collect_short pages); assumption.
  - exact Hreq.
  - rewrite Hreq. apply Forall_forall. intros r Hr.
    apply list_elem_of_fmap in Hr as (i & -> & _). reflexivity.
Qed.

(** X17.  A client with another page of items for every request keeps the loop
    going for ever: no number of requests ends it. *)
Theorem getAllFiles_never_ends_without_empty_page :
  (forall page, 1 <= page ->
     exists items, items <> [] /\ servesPage page items) ->
  forall fuel,
    getAllFilesForPullRequest client fuel owner repo pullNumber = None.
Proof.
  intros Hp fuel. unfold getAllFilesForPullRequest.
  generalize (@nil JSValue) at 1. generalize (@nil Event).
  assert (H1 : 1 <= 1) by lia. revert H1. generalize 1 at 2 3.
  induction fuel as [|fuel IH]; intros page Hpage trace allFiles;
    [reflexivity|].
  destruct (Hp page Hpage) as (items & Hne & Hs).
  rewrite (collect_step _ page items); auto.
  apply IH. lia.
Qed.

(** X18.  A request that fails, or an answer without [data] (as a promise that
    has not been awaited has none), ends the loop in that failure; the items
    of the pages before are not returned. *)
Theorem getAllFiles_failure_discards_pages (pages : list (list JSValue))
  (fuel : nat) :
  (forall i items, pages !! i = Some items ->
     items <> [] /\ servesPage (1 + Z.of_nat i) items) ->
  (length pages < fuel)%nat ->
  (forall e,
     client (request (1 + Z.of_nat (length pages))) = Throw e ->
     getAllFilesForPullRequest client fuel owner repo pullNumber
     = Some (Throw e,
             (pageEvents 1 pages
              ++ [Requested (request (1 + Z.of_nat (length pages)))])%list))
  /\
  (forall response,
     client (request (1 + Z.of_nat (length pages))) = Return response ->
     GetV response "data" = Return JUndefined ->
     getAllFilesForPullRequest client fuel owner repo pullNumber
     = Some (Throw TypeError,
             (pageEvents 1 pages
              ++ [Requested (request (1 + Z.of_nat (length pages)))])%list)).
Proof.
  intros Hp Hf. unfold getAllFilesForPullRequest.
  replace fuel with (length pages + S (fuel - S (length pages)))%nat by lia.
  rewrite collect_pages by exact Hp.
  cbn [PullRequestFiles.collect]. split.
  - intros e ->. reflexivity.
  - intros response -> Hd. cbn [bind]. rewrite Hd. reflexivity.
Qed.

End Client.

Lemma getAllFiles_until_empty_page_witness :
  getAllFilesForPullRequest Samples.pagedClient 5 "badges" "shields" 1
  = Some (Return (concat Samples.twoPages),
          (pageEvents "badges" "shields" 1 1 Samples.twoPages
           ++ [Requested (filesRequest "badges" "shields" 1 3)])%list).
Proof.
  refine (proj1 (getAllFiles_until_empty_page Samples.pagedClient
                   "badges" "shields" 1 Samples.twoPages 5 _ _) _).
  - intros [|[|[|i]]] items Hi; cbn in Hi; try discriminate Hi;
      injection Hi as <-; (split; [discriminate|]);
      eexists; split; reflexivity.
  - eexists. split; reflexivity.
  - cbn. lia.
Defined.

Lemma getAllFiles_never_ends_without_empty_page_witness :
  getAllFilesForPullRequest Samples.endlessClient 1000 "badges" "shields" 1
  = None.
Proof.
  apply (getAllFiles_never_ends_without_empty_page Samples.endlessClient
           "badges" "shields" 1).
  intros page _. exists [Samples.file "package-lock.json"].
  split; [discriminate|]. eexists. split; reflexivity.
Defined.

Lemma getAllFiles_failure_discards_pages_witness :
  getAllFilesForPullRequest Samples.limitedClient 5 "badges" "shields" 1
  = Some (Throw (Failure RateLimited "API rate limit exceeded"),
          (pageEvents "badges" "shields" 1 1 Samples.twoPages
           ++ [Requested (filesRequest "badges" "shields" 1 3)])%list) /\
  getAllFilesForPullRequest Samples.truncatedClient 5 "badges" "shields" 1
  = Some (Throw TypeError,
          (pageEvents "badges" "shields" 1 1 Samples.twoPages
           ++ [Requested (filesRequest "badges" "shields" 1 3)])%list).
Proof.
  split.
  - refine (proj1 (getAllFiles_failure_discards_pages Samples.limitedClient
                     "badges" "shields" 1 Samples.twoPages 5 _ _) _ _).
    + intros [|[|[|i]]] items Hi; cbn in Hi; try discriminate Hi;
        injection Hi as <-; (split; [discriminate|]);
        eexists; split; reflexivity.
    + cbn. lia.
    + reflexivity.
  - refine (proj2 (getAllFiles_failure_discards_pages Samples.truncatedClient
                     "badges" "shields" 1 Samples.twoPages 5 _ _)
              (JObj ∅) _ _).
    + intros [|[|[|i]]] items Hi; cbn in Hi; try discriminate Hi;
        injection Hi as <-; (split; [discriminate|]);
        eexists; split; reflexivity.
    + cbn. lia.
    + reflexivity.
    + reflexivity.
Defined.

End PullRequestFilesProofs.
